(** * CV generator: a shallow embedding of [main.py] and its properties

    The development follows the structure of the program:

    - [Py]: the Python built-ins the program relies on ([str.replace],
      [str.join], integer and float formatting);
    - [Datetime]: the part of [datetime] that the program uses
      ([now() - timedelta(days=k)], [strftime]), with the proleptic
      Gregorian calendar arithmetic of CPython;
    - [Effects]: the state-and-exception monad in which the request
      handlers run (random draws, Faker text, clock readings);
    - [CV]: the [CVGenerator] class and the HTTP handlers;
    - [Props]: the vocabulary of the properties, and fixtures;
    - [DatetimeFacts], [StringFacts], [RunFacts]: the calendar, strings
      and runs of the monad;
    - [StoryFacts]: the story that [create_pdf] composes;
    - [GeneratorFacts]: the generators and the request handlers.

    Python [str] values are modelled as their UTF-8 encoding, one Rocq
    [ascii] per byte. *)

From Stdlib Require Import ZArith List String Ascii DecimalString Bool Lia FinFun.
Import ListNotations.

Open Scope string_scope.
Open Scope Z_scope.

(* ================================================================== *)
(** * Python built-ins *)
(* ================================================================== *)

Module Py.

(** [s.replace(old, new)] for a one-character [old]. *)
Fixpoint replace (old : ascii) (new : string) (s : string) : string :=
  match s with
  | EmptyString => EmptyString
  | String c rest =>
      if Ascii.eqb c old then new ++ replace old new rest
      else String c (replace old new rest)
  end.

(** [sep.join(xs)]. *)
Fixpoint join (sep : string) (xs : list string) : string :=
  match xs with
  | [] => ""
  | [x] => x
  | x :: rest => x ++ sep ++ join sep rest
  end.

(** [str(n)] for an [int]. *)
Definition str_int (n : Z) : string :=
  NilEmpty.string_of_int (Z.to_int n).

Fixpoint zeros (k : nat) : string :=
  match k with
  | O => ""
  | S k' => String "0" (zeros k')
  end.

(** [s.zfill(width)] for a string of digits. *)
Definition zfill (width : nat) (s : string) : string :=
  zeros (width - String.length s) ++ s.

(** The format specification [0<width>d]: sign first, then zeros up to
    the width, then the digits. *)
Definition format_0d (width : nat) (n : Z) : string :=
  if n <? 0 then "-" ++ zfill (width - 1) (str_int (- n))
  else zfill width (str_int n).

(** A [float] that is a whole number of hundredths, as produced by
    [round(x, 2)], is represented by that number of hundredths.
    [repr_hundredths h] is the shortest decimal that [repr] prints for it:
    [300 -> 3.0], [350 -> 3.5], [357 -> 3.57]. *)
Definition repr_hundredths (h : Z) : string :=
  let a := Z.abs h in
  let whole := str_int (a / 100) in
  let frac := a mod 100 in
  (if h <? 0 then "-" else "") ++ whole ++ "." ++
  (if frac mod 10 =? 0 then str_int (frac / 10) else zfill 2 (str_int frac)).

(** [str(x)] where [x] is [None] or such a float. *)
Definition str_opt_float (x : option Z) : string :=
  match x with
  | None => "None"
  | Some h => repr_hundredths h
  end.

(** Truth value of a list ([if xs:]). *)
Definition truthy_list {A : Type} (xs : list A) : bool :=
  match xs with
  | [] => false
  | _ :: _ => true
  end.

(** Truth value of an optional float ([if x:] where [x] is [None] or a
    float): [None] and [0.0] are false. *)
Definition truthy_opt_float (x : option Z) : bool :=
  match x with
  | None => false
  | Some h => negb (h =? 0)
  end.

End Py.

(* ================================================================== *)
(** * Dates and times *)
(* ================================================================== *)

Module Datetime.

(** A [datetime] is kept as the proleptic Gregorian ordinal of its date
    (1 is 0001-01-01) and its time of day.  Microseconds play no part in
    the program and are left out. *)
Record datetime : Type := mkDatetime {
  toordinal : Z;
  hour : Z;
  minute : Z;
  second : Z
}.

Definition MAXORDINAL : Z := 3652059. (* 9999-12-31 *)

Definition is_leap (year : Z) : bool :=
  (year mod 4 =? 0) && (negb (year mod 100 =? 0) || (year mod 400 =? 0)).

Definition days_before_year (year : Z) : Z :=
  let y := year - 1 in
  y * 365 + y / 4 - y / 100 + y / 400.

Definition DAYS_IN_MONTH (month : Z) : Z :=
  match month with
  | 1 => 31 | 2 => 28 | 3 => 31 | 4 => 30 | 5 => 31 | 6 => 30
  | 7 => 31 | 8 => 31 | 9 => 30 | 10 => 31 | 11 => 30 | 12 => 31
  | _ => -1
  end.

Definition DAYS_BEFORE_MONTH (month : Z) : Z :=
  match month with
  | 1 => 0 | 2 => 31 | 3 => 59 | 4 => 90 | 5 => 120 | 6 => 151
  | 7 => 181 | 8 => 212 | 9 => 243 | 10 => 273 | 11 => 304 | 12 => 334
  | _ => -1
  end.

Definition days_in_month (year month : Z) : Z :=
  if (month =? 2) && is_leap year then 29 else DAYS_IN_MONTH month.

Definition days_before_month (year month : Z) : Z :=
  DAYS_BEFORE_MONTH month + (if (2 <? month) && is_leap year then 1 else 0).

Definition ymd2ord (year month day : Z) : Z :=
  days_before_year year + days_before_month year month + day.

Definition DI400Y : Z := 146097.
Definition DI100Y : Z := 36524.
Definition DI4Y : Z := 1461.

(** Ordinal to (year, month, day), as CPython computes it. *)
Definition ord2ymd (n : Z) : Z * Z * Z :=
  let n := n - 1 in
  let n400 := n / DI400Y in
  let n := n mod DI400Y in
  let year := n400 * 400 + 1 in
  let n100 := n / DI100Y in
  let n := n mod DI100Y in
  let n4 := n / DI4Y in
  let n := n mod DI4Y in
  let n1 := n / 365 in
  let n := n mod 365 in
  let year := year + n100 * 100 + n4 * 4 + n1 in
  if (n1 =? 4) || (n100 =? 4) then (year - 1, 12, 31)
  else
    let leapyear := (n1 =? 3) && (negb (n4 =? 24) || (n100 =? 3)) in
    let month := Z.shiftr (n + 50) 5 in
    let preceding :=
      DAYS_BEFORE_MONTH month + (if (2 <? month) && leapyear then 1 else 0) in
    if n <? preceding then
      let month := month - 1 in
      let preceding :=
        preceding
        - (DAYS_IN_MONTH month + (if (month =? 2) && leapyear then 1 else 0)) in
      (year, month, n - preceding + 1)
    else (year, month, n - preceding + 1).

Definition year (d : datetime) : Z := fst (fst (ord2ymd (toordinal d))).
Definition month (d : datetime) : Z := snd (fst (ord2ymd (toordinal d))).
Definition day (d : datetime) : Z := snd (ord2ymd (toordinal d)).

(** [d - timedelta(days=k)]: [None] stands for the [OverflowError] that
    Python raises when the result leaves the supported range. *)
Definition sub_days (d : datetime) (k : Z) : option datetime :=
  let o := toordinal d - k in
  if (0 <? o) && (o <=? MAXORDINAL)
  then Some (mkDatetime o (hour d) (minute d) (second d))
  else None.

(** [d.strftime('%m/%Y')]; the year is printed with four digits, as the
    documentation of [%Y] has it. *)
Definition strftime_mY (d : datetime) : string :=
  Py.format_0d 2 (month d) ++ "/" ++ Py.format_0d 4 (year d).

(** [d.strftime("%Y%m%d_%H%M%S")] *)
Definition strftime_stamp (d : datetime) : string :=
  Py.format_0d 4 (year d) ++ Py.format_0d 2 (month d) ++ Py.format_0d 2 (day d)
  ++ "_" ++
  Py.format_0d 2 (hour d) ++ Py.format_0d 2 (minute d) ++ Py.format_0d 2 (second d).

(** Months counted from year 0: the order of [(year, month)] pairs. *)
Definition month_index (d : datetime) : Z := year d * 12 + (month d - 1).

End Datetime.

(* ================================================================== *)
(** * Effects: random draws, Faker text, the clock, exceptions *)
(* ================================================================== *)

Module Effects.

Import Datetime.

Inductive exn : Type :=
| HTTPException (status_code : Z) (detail : string)
| OverflowError
| ValueError.

Inductive result (A : Type) : Type :=
| Ok (a : A)
| Raise (e : exn).
Arguments Ok {A} a.
Arguments Raise {A} e.

(** The Faker providers that the program calls. *)
Inductive fake_kind : Type :=
| Name | Email | PhoneNumber | StreetAddress | City | State | Zipcode
| UserName | Text | Sentence.

(** What the outside world supplies to one run: the raw draws of the
    [random] module, the answers of the Faker instance (by provider and
    call number) and the successive readings of the system clock. *)
Record Env : Type := mkEnv {
  entropy : nat -> nat;
  faker : fake_kind -> nat -> string;
  clock : nat -> datetime
}.

(** How much of each has been consumed. *)
Record world : Type := mkWorld {
  drawn : nat;
  faked : nat;
  ticks : nat
}.

Definition M (A : Type) : Type := world -> result A * world.

Definition ret {A : Type} (a : A) : M A := fun w => (Ok a, w).

Definition raise {A : Type} (e : exn) : M A := fun w => (Raise e, w).

Definition bind {A B : Type} (m : M A) (k : A -> M B) : M B :=
  fun w =>
    match m w with
    | (Ok a, w') => k a w'
    | (Raise e, w') => (Raise e, w')
    end.

Notation "x <- m ;; k" := (bind m (fun x => k))
  (at level 61, m at next level, right associativity).

(** [range(n)] *)
Definition range (n : Z) : list Z := map Z.of_nat (seq 0 (Z.to_nat n)).

(** [for i in xs: acc = body(acc, i)] *)
Fixpoint foldM {T I : Type} (body : T -> I -> M T) (xs : list I) (acc : T) : M T :=
  match xs with
  | [] => ret acc
  | i :: rest => acc' <- body acc i ;; foldM body rest acc'
  end.

(** [out = []; for i in xs: out.append(body(i))], and the list
    comprehension [[body(i) for i in xs]]. *)
Fixpoint mapM {I A : Type} (body : I -> M A) (xs : list I) : M (list A) :=
  match xs with
  | [] => ret []
  | i :: rest => a <- body i ;; out <- mapM body rest ;; ret (a :: out)
  end.

Section Primitives.

Variable E : Env.

Definition draw : M nat :=
  fun w => (Ok (entropy E (drawn w)), mkWorld (S (drawn w)) (faked w) (ticks w)).

(** A call of the Faker provider [k]. *)
Definition fake (k : fake_kind) : M string :=
  fun w => (Ok (faker E k (faked w)), mkWorld (drawn w) (S (faked w)) (ticks w)).

(** [datetime.now()] *)
Definition now : M datetime :=
  fun w => (Ok (clock E (ticks w)), mkWorld (drawn w) (faked w) (S (ticks w))).

(** [random.randint(a, b)]: an integer of [a..b], both ends included. *)
Definition randint (a b : Z) : M Z :=
  n <- draw ;; ret (a + Z.of_nat n mod (b - a + 1)).

(** [random.choice(xs)] for a non-empty constant list [xs]; [d] is never
    returned. *)
Definition choice {A : Type} (d : A) (xs : list A) : M A :=
  n <- draw ;; ret (nth (n mod List.length xs)%nat xs d).

Fixpoint remove_nth {A : Type} (j : nat) (xs : list A) : list A :=
  match xs, j with
  | [], _ => []
  | _ :: rest, O => rest
  | x :: rest, S j' => x :: remove_nth j' rest
  end.

Fixpoint sample_loop {A : Type} (d : A) (k : nat) (pool : list A) : M (list A) :=
  match k with
  | O => ret []
  | S k' =>
      n <- draw ;;
      let j := (n mod List.length pool)%nat in
      out <- sample_loop d k' (remove_nth j pool) ;;
      ret (nth j pool d :: out)
  end.

(** [random.sample(population, k)]: [k] elements at distinct positions,
    in the order drawn. *)
Definition sample {A : Type} (d : A) (population : list A) (k : Z) : M (list A) :=
  if (k <? 0) || (Z.of_nat (List.length population) <? k) then raise ValueError
  else sample_loop d (Z.to_nat k) population.

(** [round(random.uniform(3.0, 4.0), 2)], in hundredths. *)
Definition round_uniform_3_4 : M Z :=
  n <- draw ;; ret (300 + Z.of_nat n mod 101).

(** [d - timedelta(days=k)] *)
Definition minus_days (d : datetime) (k : Z) : M datetime :=
  match sub_days d k with
  | Some d' => ret d'
  | None => raise OverflowError
  end.

End Primitives.

End Effects.

(* ================================================================== *)
(** * The CV generator *)
(* ================================================================== *)

Module CV.

Import Datetime Effects.

(** ** Data: the dictionaries of [main.py] as records *)

Record Personal : Type := mkPersonal {
  name : string;
  email : string;
  phone : string;
  address : string;
  linkedin : string;
  summary : string
}.

Record Experience : Type := mkExperience {
  position : string;
  company : string;
  start_date : string;
  end_date : string;
  responsibilities : list string
}.

Record Education : Type := mkEducation {
  degree : string;
  institution : string;
  year : string;
  gpa : option Z  (* hundredths; [None] is Python's [None] *)
}.

Record Skills : Type := mkSkills {
  technical : list string;
  soft : list string
}.

Record CVData : Type := mkCVData {
  personal : Personal;
  experience : list Experience;
  education : list Education;
  skills : Skills;
  certifications : list string
}.

(** ** The document: reportlab flowables *)

Inductive StyleName : Type := CVTitle | SectionHeader | ContactInfo | Normal.

Inductive Flowable : Type :=
| Paragraph (text : string) (style : StyleName)
| Spacer (width height : Z).

(** One archive member written by [ZipFile.writestr]. *)
Definition ZipFile : Type := list (string * string).

Definition writestr (zip_file : ZipFile) (filename data : string) : ZipFile :=
  (zip_file ++ [(filename, data)])%list.

Definition nl : string := String (ascii_of_nat 10) "".
Definition indent : string := "        ".
Definition bullet : string := "• ".

Definition append {A : Type} (xs : list A) (x : A) : list A := (xs ++ [x])%list.

Definition positions : list string :=
  [ "Software Engineer"; "Data Analyst"; "Product Manager"; "Marketing Specialist";
    "Sales Representative"; "HR Coordinator"; "Financial Analyst"; "Project Manager";
    "Operations Manager"; "Customer Success Manager"; "DevOps Engineer"; "UX Designer";
    "Business Analyst"; "Quality Assurance Engineer"; "Content Writer" ].

Definition companies : list string :=
  [ "TechCorp Inc."; "Global Solutions Ltd."; "Innovation Labs"; "Digital Dynamics";
    "Future Systems"; "Smart Technologies"; "NextGen Solutions"; "Alpha Enterprises";
    "Beta Industries"; "Gamma Corporation"; "Delta Systems"; "Epsilon Group" ].

Definition degrees : list string :=
  [ "Bachelor of Science in Computer Science";
    "Bachelor of Arts in Business Administration";
    "Master of Business Administration";
    "Bachelor of Engineering";
    "Master of Science in Data Science";
    "Bachelor of Arts in Marketing";
    "Master of Science in Information Technology";
    "Bachelor of Science in Finance" ].

Definition universities : list string :=
  [ "State University"; "Tech Institute"; "Business College"; "Engineering University";
    "Metropolitan University"; "City College"; "National Institute"; "Regional University" ].

Definition technical_skills : list string :=
  [ "Python"; "Java"; "JavaScript"; "SQL"; "React"; "Node.js"; "AWS"; "Docker";
    "Kubernetes"; "Git"; "Linux"; "MongoDB"; "PostgreSQL"; "Redis"; "Elasticsearch" ].

Definition soft_skills : list string :=
  [ "Leadership"; "Communication"; "Problem Solving"; "Team Collaboration";
    "Project Management"; "Time Management"; "Critical Thinking"; "Adaptability" ].

Definition certs : list string :=
  [ "AWS Certified Solutions Architect";
    "Google Cloud Professional";
    "Microsoft Azure Fundamentals";
    "Certified Project Management Professional (PMP)";
    "Scrum Master Certification";
    "Six Sigma Green Belt";
    "CompTIA Security+";
    "Cisco Certified Network Associate (CCNA)" ].

(** ** [CVGenerator.create_pdf]: the story *)

Definition contact_info (p : Personal) : string :=
  nl ++ indent ++ email p ++ " | " ++ phone p ++ "<br/>" ++
  nl ++ indent ++ address p ++ "<br/>" ++
  nl ++ indent ++ linkedin p ++
  nl ++ indent.

Definition exp_header (exp : Experience) : string :=
  "<b>" ++ position exp ++ "</b> - " ++ company exp ++
  " (" ++ start_date exp ++ " - " ++ end_date exp ++ ")".

Definition edu_text (edu : Education) : string :=
  let edu_text :=
    "<b>" ++ degree edu ++ "</b><br/>" ++ institution edu ++ ", " ++ year edu in
  if Py.truthy_opt_float (gpa edu)
  then edu_text ++ " (GPA: " ++ Py.str_opt_float (gpa edu) ++ ")"
  else edu_text.

(** The list [story] as [create_pdf] has built it when it calls
    [doc.build]. *)
Definition story (cv_data : CVData) : list Flowable :=
  let story := [] in
  (* Name and title *)
  let story := append story (Paragraph (name (personal cv_data)) CVTitle) in
  (* Contact information *)
  let story := append story (Paragraph (contact_info (personal cv_data)) ContactInfo) in
  (* Professional Summary *)
  let story := append story (Paragraph "PROFESSIONAL SUMMARY" SectionHeader) in
  let story := append story (Paragraph (summary (personal cv_data)) Normal) in
  let story := append story (Spacer 1 12) in
  (* Work Experience *)
  let story := append story (Paragraph "WORK EXPERIENCE" SectionHeader) in
  let story :=
    fold_left
      (fun story exp =>
         let story := append story (Paragraph (exp_header exp) Normal) in
         let story :=
           fold_left
             (fun story resp => append story (Paragraph (bullet ++ resp) Normal))
             (responsibilities exp) story in
         append story (Spacer 1 8))
      (experience cv_data) story in
  (* Education *)
  let story := append story (Paragraph "EDUCATION" SectionHeader) in
  let story :=
    fold_left
      (fun story edu =>
         let story := append story (Paragraph (edu_text edu) Normal) in
         append story (Spacer 1 8))
      (education cv_data) story in
  (* Skills *)
  let story := append story (Paragraph "SKILLS" SectionHeader) in
  let story :=
    append story
      (Paragraph ("<b>Technical:</b> " ++ Py.join ", " (technical (skills cv_data))) Normal) in
  let story :=
    append story
      (Paragraph ("<b>Soft Skills:</b> " ++ Py.join ", " (soft (skills cv_data))) Normal) in
  let story := append story (Spacer 1 8) in
  (* Certifications *)
  if Py.truthy_list (certifications cv_data) then
    let story := append story (Paragraph "CERTIFICATIONS" SectionHeader) in
    fold_left
      (fun story cert => append story (Paragraph (bullet ++ cert) Normal))
      (certifications cv_data) story
  else story.

(** The file name of one CV; [index] is the batch position, absent for a
    single download. *)
Definition sanitize (name : string) : string :=
  Py.replace "," "" (Py.replace " " "_" name).

Definition cv_filename (name timestamp : string) (index : option Z) : string :=
  "CV_" ++ sanitize name ++ "_" ++ timestamp ++
  match index with
  | Some i => "_" ++ Py.format_0d 3 i
  | None => ""
  end ++ ".pdf".

Section Generator.

Variable E : Env.

(** [doc.build(story)] followed by reading the buffer: the bytes of the
    rendered PDF, a function of the story. *)
Variable build : list Flowable -> string.

Definition create_pdf (cv_data : CVData) : string := build (story cv_data).

Definition generate_personal_info : M Personal :=
  name <- fake E Name ;;
  email <- fake E Email ;;
  phone <- fake E PhoneNumber ;;
  street_address <- fake E StreetAddress ;;
  city <- fake E City ;;
  state <- fake E State ;;
  zipcode <- fake E Zipcode ;;
  user_name <- fake E UserName ;;
  summary <- fake E Text ;;
  ret (mkPersonal name email phone
         (street_address ++ ", " ++ city ++ ", " ++ state ++ " " ++ zipcode)
         ("linkedin.com/in/" ++ user_name)
         summary).

Definition generate_work_experience : M (list Experience) :=
  current_date <- now E ;;
  n <- randint E 2 5 ;;
  mapM
    (fun i =>
       r <- randint E 30 365 ;;
       end_date <- minus_days current_date (r * i) ;;
       r <- randint E 365 1095 ;;
       start_date <- minus_days end_date r ;;
       position <- choice E "" positions ;;
       company <- choice E "" companies ;;
       k <- randint E 2 4 ;;
       responsibilities <- mapM (fun _ => fake E Sentence) (range k) ;;
       ret (mkExperience position company
              (strftime_mY start_date)
              (if 0 <? i then strftime_mY end_date else "Present")
              responsibilities))
    (range n).

Definition generate_education : M (list Education) :=
  n <- randint E 1 3 ;;
  mapM
    (fun _ =>
       grad_year <- randint E 2010 2023 ;;
       degree <- choice E "" degrees ;;
       institution <- choice E "" universities ;;
       with_gpa <- choice E false [true; false] ;;
       gpa <- (if with_gpa : bool
               then g <- round_uniform_3_4 E ;; ret (Some g)
               else ret None) ;;
       ret (mkEducation degree institution (Py.str_int grad_year) gpa))
    (range n).

Definition generate_skills : M Skills :=
  k <- randint E 5 10 ;;
  technical <- sample E "" technical_skills k ;;
  k <- randint E 3 6 ;;
  soft <- sample E "" soft_skills k ;;
  ret (mkSkills technical soft).

Definition generate_certifications : M (list string) :=
  k <- randint E 0 3 ;;
  sample E "" certs k.

(** The dictionary literal that every handler evaluates. *)
Definition random_cv_data : M CVData :=
  personal <- generate_personal_info ;;
  experience <- generate_work_experience ;;
  education <- generate_education ;;
  skills <- generate_skills ;;
  certifications <- generate_certifications ;;
  ret (mkCVData personal experience education skills certifications).

(** ** The request handlers *)

Definition generate_random_cv : M CVData := random_cv_data.

(** Returns the fields [cvs] and [count] of the response. *)
Definition generate_multiple_cvs (count : Z) : M (list CVData * Z) :=
  if 20 <? count then
    raise (HTTPException 400 "Maximum 10 CVs can be generated at once")
  else
    cvs <- mapM (fun _ => random_cv_data) (range count) ;;
    ret (cvs, Z.of_nat (List.length cvs)).

(** Returns the file name of the attachment and its bytes. *)
Definition download_single_cv_pdf : M (string * string) :=
  cv_data <- random_cv_data ;;
  let pdf_buffer := create_pdf cv_data in
  timestamp <- now E ;;
  let filename := cv_filename (name (personal cv_data)) (strftime_stamp timestamp) None in
  ret (filename, pdf_buffer).

(** Returns the file name of the attachment and the archive. *)
Definition download_multiple_cvs_zip (count : Z) : M (string * ZipFile) :=
  if 20 <? count then
    raise (HTTPException 400 "Maximum 20 CVs can be generated at once")
  else
    zip_file <-
      foldM
        (fun zip_file i =>
           cv_data <- random_cv_data ;;
           let pdf_buffer := create_pdf cv_data in
           timestamp <- now E ;;
           let filename :=
             cv_filename (name (personal cv_data)) (strftime_stamp timestamp)
               (Some (i + 1)) in
           ret (writestr zip_file filename pdf_buffer))
        (range count) [] ;;
    timestamp <- now E ;;
    let zip_filename :=
      "CVs_Batch_" ++ strftime_stamp timestamp ++ "_" ++ Py.str_int count ++ "_files.zip" in
    ret (zip_filename, zip_file).

End Generator.

End CV.

(* ================================================================== *)
(** * The style sheet of the generator *)
(* ================================================================== *)

Module Styles.

Import CV.

(** The value of a style attribute: a number, or a colour or font by
    name. *)
Inductive value : Type :=
| Num (n : Z)
| Named (s : string).

(** A [ParagraphStyle]: its name, the name of its parent and its
    attributes; of two bindings of a key the first counts. *)
Record ParagraphStyle : Type := mkStyle {
  style_name : string;
  parent : option string;
  attributes : list (string * value)
}.

Fixpoint lookup {V : Type} (key : string) (kvs : list (string * V)) : option V :=
  match kvs with
  | [] => None
  | (k, v) :: rest => if String.eqb k key then Some v else lookup key rest
  end.



(** A [StyleSheet1] by name; the aliases, which the program does not use,
    are left out. *)
Definition StyleSheet : Type := list (string * ParagraphStyle).

(** [sheet[key]]; [None] stands for [KeyError]. *)
Definition getitem (sheet : StyleSheet) (key : string) : option ParagraphStyle :=
  lookup key sheet.

(** [sheet.add(style)]; [None] stands for the [KeyError] raised when the
    name is taken. *)
Definition add (sheet : StyleSheet) (style : ParagraphStyle) : option StyleSheet :=
  match getitem sheet (style_name style) with
  | Some _ => None
  | None => Some (sheet ++ [(style_name style, style)])%list
  end.








End Styles.

(* ================================================================== *)
(** * Vocabulary of the properties *)
(* ================================================================== *)

Module Props.

Import Datetime Effects CV.

(** ** Blocks of a story *)

Definition style_eqb (a b : StyleName) : bool :=
  match a, b with
  | CVTitle, CVTitle | SectionHeader, SectionHeader
  | ContactInfo, ContactInfo | Normal, Normal => true
  | _, _ => false
  end.

(** The texts of the paragraphs of style [s], in story order. *)
Fixpoint texts_styled (s : StyleName) (bs : list Flowable) : list string :=
  match bs with
  | [] => []
  | Paragraph t st :: rest =>
      if style_eqb st s then t :: texts_styled s rest else texts_styled s rest
  | Spacer _ _ :: rest => texts_styled s rest
  end.

(** The blocks that one experience entry contributes. *)
Definition experience_blocks (exp : Experience) : list Flowable :=
  (Paragraph (exp_header exp) Normal
   :: map (fun resp => Paragraph (bullet ++ resp) Normal) (responsibilities exp)
   ++ [Spacer 1 8])%list.

Definition education_blocks (edu : Education) : list Flowable :=
  [Paragraph (edu_text edu) Normal; Spacer 1 8].

Definition certification_blocks (cs : list string) : list Flowable :=
  match cs with
  | [] => []
  | _ :: _ =>
      Paragraph "CERTIFICATIONS" SectionHeader
      :: map (fun cert => Paragraph (bullet ++ cert) Normal) cs
  end.

(** The blocks before the first experience entry. *)
Definition preamble (cv_data : CVData) : list Flowable :=
  [ Paragraph (name (personal cv_data)) CVTitle;
    Paragraph (contact_info (personal cv_data)) ContactInfo;
    Paragraph "PROFESSIONAL SUMMARY" SectionHeader;
    Paragraph (summary (personal cv_data)) Normal;
    Spacer 1 12;
    Paragraph "WORK EXPERIENCE" SectionHeader ].

(** The blocks after the last experience entry. *)
Definition epilogue (cv_data : CVData) : list Flowable :=
  ([Paragraph "EDUCATION" SectionHeader]
   ++ flat_map education_blocks (education cv_data)
   ++ [ Paragraph "SKILLS" SectionHeader;
        Paragraph ("<b>Technical:</b> " ++ Py.join ", " (technical (skills cv_data))) Normal;
        Paragraph ("<b>Soft Skills:</b> " ++ Py.join ", " (soft (skills cv_data))) Normal;
        Spacer 1 8 ]
   ++ certification_blocks (certifications cv_data))%list.

(** Within the experience section the position/company headers are the
    paragraphs that open with bold markup; bullets open with the bullet
    sign. *)
Definition is_bold_paragraph (b : Flowable) : bool :=
  match b with
  | Paragraph t _ => String.prefix "<b>" t
  | Spacer _ _ => false
  end.

(** ** Education text *)

(** The education text before any GPA suffix. *)
Definition edu_base (edu : Education) : string :=
  "<b>" ++ degree edu ++ "</b><br/>" ++ institution edu ++ ", " ++ year edu.

(** The education text ends in a parenthetical GPA. *)
Definition has_gpa_parenthetical (edu : Education) : Prop :=
  exists g, edu_text edu = edu_base edu ++ " (GPA: " ++ g ++ ")".

(** The GPA, when present, lies between 3.0 and 4.0. *)
Definition gpa_in_bounds (edu : Education) : Prop :=
  match gpa edu with
  | Some g => 300 <= g <= 400
  | None => True
  end.

(** ** The wording of the specification, for comparison *)

(** In the words of the specification: the experience header with an em
    dash between position and company and an en dash between the dates. *)
Definition spec_exp_header (exp : Experience) : string :=
  position exp ++ " — " ++ company exp ++
  " (" ++ start_date exp ++ " – " ++ end_date exp ++ ")".

(** In the words of the specification: the four contact fields joined
    with a vertical separator. *)
Definition spec_contact_line (p : Personal) : string :=
  Py.join " | " [email p; phone p; address p; linkedin p].

Fixpoint count_char (c : ascii) (s : string) : nat :=
  match s with
  | EmptyString => 0%nat
  | String c' rest =>
      ((if Ascii.eqb c' c then 1 else 0) + count_char c rest)%nat
  end.

(** White space, as [str.isspace] has it for one-byte characters. *)
Definition is_whitespace (c : ascii) : bool :=
  let n := nat_of_ascii c in
  ((9 <=? n) && (n <=? 13) || (n =? 32))%nat.

(** Characters that a file name cannot hold on POSIX (NUL and the slash)
    or on Windows (the reserved punctuation). *)
Definition illegal_in_filename (c : ascii) : bool :=
  existsb (Nat.eqb (nat_of_ascii c)) [0; 47; 92; 58; 42; 63; 34; 60; 62; 124]%nat.

Definition filesystem_safe (s : string) : bool :=
  forallb (fun c => negb (illegal_in_filename c)) (list_ascii_of_string s).

Definition has_whitespace (s : string) : bool :=
  existsb is_whitespace (list_ascii_of_string s).

(** What [sanitize] does to the characters of a name. *)
Definition sanitized_chars (cs : list ascii) : list ascii :=
  map (fun c => if Ascii.eqb c " " then "_"%char else c)
      (filter (fun c => negb (Ascii.eqb c ",")) cs).

(** The batch index written with exactly three decimal digits. *)
Definition digit_char (d : Z) : ascii := ascii_of_nat (48 + Z.to_nat d).

Definition three_digits (n : Z) : string :=
  String (digit_char (n / 100))
    (String (digit_char (n / 10 mod 10))
       (String (digit_char (n mod 10)) EmptyString)).

(** ** Dates *)

(** The last step of [ord2ymd]: month and day of the day numbered [n]
    (from 0) within a year. *)
Definition month_day (leapyear : bool) (n : Z) : Z * Z :=
  let month := Z.shiftr (n + 50) 5 in
  let preceding :=
    DAYS_BEFORE_MONTH month + (if (2 <? month) && leapyear then 1 else 0) in
  if n <? preceding then
    let month := month - 1 in
    let preceding :=
      preceding
      - (DAYS_IN_MONTH month + (if (month =? 2) && leapyear then 1 else 0)) in
    (month, n - preceding + 1)
  else (month, n - preceding + 1).

(** A date that [datetime] can hold. *)
Definition in_range (d : datetime) : Prop := 1 <= toordinal d <= MAXORDINAL.

(** The clock is read after 0007-12-31 and before the year 10000, so that
    no subtraction of the generator leaves the range of [datetime]. *)
Definition clock_ok (E : Env) : Prop :=
  forall t, 2555 < toordinal (clock E t) <= MAXORDINAL.

(** ** Reading back the dates of an experience entry *)

Definition digit_value (c : ascii) : option Z :=
  let n := Z.of_nat (nat_of_ascii c) in
  if (48 <=? n) && (n <=? 57) then Some (n - 48) else None.

Fixpoint parse_digits (acc : Z) (s : string) : option Z :=
  match s with
  | EmptyString => Some acc
  | String c rest =>
      match digit_value c with
      | Some v => parse_digits (acc * 10 + v) rest
      | None => None
      end
  end.

Definition parse_number (s : string) : option Z :=
  match s with
  | EmptyString => None
  | _ => parse_digits 0 s
  end.

Fixpoint split_at (sep : ascii) (s : string) : option (string * string) :=
  match s with
  | EmptyString => None
  | String c rest =>
      if Ascii.eqb c sep then Some (EmptyString, rest)
      else match split_at sep rest with
           | Some (a, b) => Some (String c a, b)
           | None => None
           end
  end.

(** The month, counted from year 0, that a text [MM/YYYY] denotes. *)
Definition parse_mY (s : string) : option Z :=
  match split_at "/" s with
  | Some (mm, yyyy) =>
      match parse_number mm, parse_number yyyy with
      | Some m, Some y =>
          if (1 <=? m) && (m <=? 12) then Some (y * 12 + (m - 1)) else None
      | _, _ => None
      end
  | None => None
  end.

(** The date [next] of an entry is not more recent than the date
    [previous] of the entry before it in the list; both are end dates or
    both start dates, [Present] being the most recent of all. *)
Definition not_more_recent (next previous : string) : bool :=
  if String.eqb previous "Present" then true
  else if String.eqb next "Present" then false
  else match parse_mY next, parse_mY previous with
       | Some a, Some b => a <=? b
       | _, _ => false
       end.

(** Most recent first, by the date that [key] selects. *)
Fixpoint most_recent_first (key : Experience -> string) (exps : list Experience) : bool :=
  match exps with
  | [] => true
  | e :: rest =>
      match rest with
      | [] => true
      | e' :: _ => not_more_recent (key e') (key e) && most_recent_first key rest
      end
  end.

(** The start date is not after the end date. *)
Definition starts_before_end (e : Experience) : Prop :=
  exists s t, parse_mY (start_date e) = Some s
              /\ parse_mY (end_date e) = Some t /\ s <= t.

(** ** Tables checked by evaluation *)

Definition reads_back (y : Z) : bool :=
  match parse_number (Py.format_0d 4 y) with
  | Some v => v =? y
  | None => false
  end.

Definition suffix_ok (i : Z) : bool :=
  String.eqb (Py.format_0d 3 (i + 1)) (three_digits (i + 1)).

Definition suffixes_differ (i j : Z) : bool :=
  implb (String.eqb (three_digits (i + 1)) (three_digits (j + 1))) (i =? j).

(** ** Generated experience entries *)

(** What the entry generated in round [i] satisfies. *)
Definition entry_ok (i : Z) (e : Experience) : Prop :=
  (exists s, parse_mY (start_date e) = Some s)
  /\ (i = 0 -> end_date e = "Present")
  /\ (0 < i -> end_date e <> "Present" /\ starts_before_end e).

(** The archive member written in round [i] is named after some Faker
    name and some reading of the clock, with index [i + 1]. *)
Definition batch_name_ok (E : Env) (i : Z) (e : string * string) : Prop :=
  exists j t,
    fst e = cv_filename (faker E Name j) (strftime_stamp (clock E t)) (Some (i + 1)).

(** ** Runs *)

(** [m], started in [w], returns normally, and its value and final world
    satisfy [P]. *)
Definition returns {A : Type} (m : M A) (w : world) (P : A -> world -> Prop) : Prop :=
  exists a w', m w = (Ok a, w') /\ P a w'.

(** The run was rejected as a bad request. *)
Definition rejected {A : Type} (r : result A * world) : Prop :=
  exists detail, fst r = Raise (HTTPException 400 detail).

(** ** Fixtures *)

Definition sample_cv (certifications : list string) : CVData :=
  mkCVData
    (mkPersonal "Ann Lee" "ann@example.org" "555-0100" "1 Main St, Springfield, Ohio 45501"
       "linkedin.com/in/annlee" "Engineer.")
    [ mkExperience "Data Analyst" "Innovation Labs" "03/2021" "Present" ["Built reports."; "Led audits."];
      mkExperience "UX Designer" "Delta Systems" "01/2018" "02/2021" ["Drew screens."] ]
    [ mkEducation "Bachelor of Engineering" "City College" "2017" (Some 357);
      mkEducation "Master of Business Administration" "Tech Institute" "2019" None ]
    (mkSkills ["Python"; "SQL"] ["Leadership"])
    certifications.

Definition sample_exp : Experience :=
  mkExperience "Data Analyst" "Innovation Labs" "03/2021" "Present"
    ["Built reports."; "Led audits."].

(** A renderer that ignores the story. *)
Definition sample_build (story : list Flowable) : string := "%PDF-1.4".

(** An environment given by a finite list of draws (0 afterwards), one
    Faker answer per provider and a clock that stands still. *)
Definition sample_env (draws : list nat) (t : datetime) : Env :=
  mkEnv (fun n => nth n draws 0%nat)
        (fun k _ =>
           match k with
           | Name => "Ann Lee"
           | Email => "ann@example.org"
           | PhoneNumber => "555-0100"
           | StreetAddress => "1 Main St"
           | City => "Springfield"
           | State => "Ohio"
           | Zipcode => "45501"
           | UserName => "annlee"
           | Text => "Engineer."
           | Sentence => "Built reports."
           end)
        (fun _ => t).

(** Draws under which the third experience entry ends after the second:
    three entries; the second ends 365 days back, the third 2 * 30. *)
Definition unordered_draws : list nat :=
  [ 1; 0; 0; 0; 0; 0; 335; 0; 0; 0; 0; 0; 0; 0; 0; 0 ]%nat.

(** 2024-06-15 13:05:09 *)
Definition sample_time : datetime := mkDatetime 739052 13 5 9.

Definition fresh : world := mkWorld 0 0 0.

End Props.

(* ================================================================== *)
(** * Further vocabulary: what the generators guarantee *)
(* ================================================================== *)

Module MoreProps.

Import Datetime Effects CV Props.

(** The entry generated in round [i] when the clock read [current]: its
    end lies 30 to 365 days, times [i], before [current], and its start
    365 to 1095 days before its end. *)
Definition entry_dated (current : datetime) (i : Z) (e : Experience) : Prop :=
  exists ed sd,
    toordinal current - 365 * i <= toordinal ed <= toordinal current - 30 * i
    /\ toordinal ed - 1095 <= toordinal sd <= toordinal ed - 365
    /\ in_range ed /\ in_range sd
    /\ start_date e = strftime_mY sd
    /\ end_date e = (if 0 <? i then strftime_mY ed else "Present").

(** The vocabulary and the size of an experience entry. *)
Definition entry_shaped (e : Experience) : Prop :=
  In (position e) positions
  /\ In (company e) companies
  /\ (2 <= List.length (responsibilities e) <= 4)%nat.

(** The dates of an entry against the month [m0] of generation: the
    start is read back as a month before [m0]; an end other than
    [Present] is read back as a month after the start and not after
    [m0]. *)
Definition entry_in_the_past (m0 : Z) (e : Experience) : Prop :=
  exists s,
    parse_mY (start_date e) = Some s /\ s < m0
    /\ (end_date e <> "Present" ->
        exists t, parse_mY (end_date e) = Some t /\ s < t <= m0).

(** The vocabulary of an education entry; the year is the decimal text of
    a year from 2010 to 2023. *)
Definition education_shaped (edu : Education) : Prop :=
  In (degree edu) degrees
  /\ In (institution edu) universities
  /\ exists y, 2010 <= y <= 2023 /\ parse_number (year edu) = Some y
               /\ String.length (year edu) = 4%nat.

(** Skills as [generate_skills] returns them. *)
Definition skills_shaped (s : Skills) : Prop :=
  (5 <= List.length (technical s) <= 10)%nat
  /\ (3 <= List.length (soft s) <= 6)%nat
  /\ NoDup (technical s) /\ NoDup (soft s)
  /\ incl (technical s) technical_skills /\ incl (soft s) soft_skills
  /\ (forall x, In x (technical s) -> ~ In x (soft s)).

(** Certifications as [generate_certifications] returns them. *)
Definition certifications_shaped (cs : list string) : Prop :=
  (List.length cs <= 3)%nat /\ NoDup cs /\ incl cs certs.

(** A record as the five generators return it. *)
Definition generated (cv_data : CVData) : Prop :=
  (2 <= List.length (experience cv_data) <= 5)%nat
  /\ Forall entry_shaped (experience cv_data)
  /\ (1 <= List.length (education cv_data) <= 3)%nat
  /\ Forall education_shaped (education cv_data)
  /\ Forall gpa_in_bounds (education cv_data)
  /\ skills_shaped (skills cv_data)
  /\ certifications_shaped (certifications cv_data).

(** Whenever [m] returns, it has read the clock [n] times. *)
Definition reads_clock {A : Type} (m : M A) (n : nat) : Prop :=
  forall w a w', m w = (Ok a, w') -> ticks w' = (ticks w + n)%nat.

(** The archive member written in the round of index [i] that started
    after [t] readings of the clock: the rendering of a generated record
    under the name of that record, stamped with the next reading but
    one. *)
Definition member_ok (E : Env) (build : list Flowable -> string)
           (t : nat) (i : Z) (e : string * string) : Prop :=
  exists cv_data,
    generated cv_data
    /\ e = (cv_filename (name (personal cv_data))
              (strftime_stamp (clock E (S t))) (Some (i + 1)),
            build (story cv_data)).

(** The number of blocks that [create_pdf] composes for a record. *)
Definition story_size (cv_data : CVData) : nat :=
  (11
   + list_sum (map (fun e => 2 + List.length (responsibilities e)) (experience cv_data))
   + 2 * List.length (education cv_data)
   + match certifications cv_data with
     | [] => 0
     | _ :: _ => 1 + List.length (certifications cv_data)
     end)%nat.

(** A character of a file name that is neither a space nor a comma. *)
Definition plain_char (c : ascii) : bool :=
  negb (Ascii.eqb c " ") && negb (Ascii.eqb c ",").

Definition plain (s : string) : bool :=
  forallb plain_char (list_ascii_of_string s).

(** Tables checked by evaluation. *)
Definition year_reads_back (y : Z) : bool :=
  match parse_number (Py.str_int y) with
  | Some v => (v =? y) && (String.length (Py.str_int y) =? 4)%nat
  | None => false
  end.

Definition not_in (xs : list string) (x : string) : bool :=
  negb (existsb (String.eqb x) xs).

Fixpoint nodupb (xs : list string) : bool :=
  match xs with
  | [] => true
  | x :: rest => not_in rest x && nodupb rest
  end.

End MoreProps.

(* ================================================================== *)
(** * The calendar *)
(* ================================================================== *)

Module DatetimeFacts.

Import Datetime Props.

(** Evaluates the month tables and the comparisons of literals. *)
Ltac calendar_calc :=
  cbn [DAYS_IN_MONTH DAYS_BEFORE_MONTH Z.eqb Z.ltb Z.compare
       Pos.eqb Pos.compare Pos.compare_cont andb orb negb].

Lemma month_day_spec (leap : bool) (n : Z) :
  0 <= n < 365 + (if leap then 1 else 0) ->
  let '(m, d) := month_day leap n in
  1 <= m <= 12 /\ 1 <= d <= (if (m =? 2) && leap then 29 else DAYS_IN_MONTH m)
  /\ DAYS_BEFORE_MONTH m + (if (2 <? m) && leap then 1 else 0) + d = n + 1.
Proof.
  intros Hn. unfold month_day. cbv zeta.
  rewrite Z.shiftr_div_pow2 by lia. change (2 ^ 5) with 32.
  assert (Hm : 1 <= (n + 50) / 32 <= 12).
  { destruct leap; Z.to_euclidean_division_equations; lia. }
  pose proof (Z.div_mod (n + 50) 32 ltac:(lia)) as Hdm.
  pose proof (Z.mod_pos_bound (n + 50) 32 ltac:(lia)) as Hb.
  set (m := (n + 50) / 32) in *.
  assert (Hc : m = 1 \/ m = 2 \/ m = 3 \/ m = 4 \/ m = 5 \/ m = 6 \/ m = 7
               \/ m = 8 \/ m = 9 \/ m = 10 \/ m = 11 \/ m = 12) by lia.
  clearbody m.
  destruct leap;
  repeat (destruct Hc as [-> | Hc]); try subst m;
    cbn -[Z.add Z.sub Z.mul];
    match goal with |- context [?a <? ?b] => destruct (Z.ltb_spec a b) end;
    repeat match goal with
           | |- context [Z.pos ?p - 1] =>
               let v := eval compute in (Z.pos p - 1) in
               change (Z.pos p - 1) with v
           end;
    cbn -[Z.add Z.sub Z.mul]; lia.
Qed.

Lemma is_leap_cases (q400 q100 q4 q1 : Z) :
  0 <= q100 <= 3 -> 0 <= q4 <= 24 -> 0 <= q1 <= 3 ->
  is_leap (q400 * 400 + 1 + q100 * 100 + q4 * 4 + q1)
  = (q1 =? 3) && (negb (q4 =? 24) || (q100 =? 3)).
Proof.
  intros H100 H4 H1. unfold is_leap.
  repeat match goal with
         | |- context [?a =? ?b] => destruct (Z.eqb_spec a b)
         end; cbn; try reflexivity; exfalso;
    Z.to_euclidean_division_equations; lia.
Qed.

Lemma days_before_year_cases (q400 q100 q4 q1 : Z) :
  0 <= q100 <= 3 -> 0 <= q4 <= 24 -> 0 <= q1 <= 3 ->
  days_before_year (q400 * 400 + 1 + q100 * 100 + q4 * 4 + q1)
  = 146097 * q400 + 36524 * q100 + 1461 * q4 + 365 * q1.
Proof.
  intros H100 H4 H1. unfold days_before_year. cbv zeta.
  Z.to_euclidean_division_equations; lia.
Qed.

Lemma ord2ymd_spec (n : Z) :
  let '(y, m, d) := ord2ymd n in
  1 <= m <= 12 /\ 1 <= d <= days_in_month y m /\ ymd2ord y m d = n.
Proof.
  unfold ord2ymd, DI400Y, DI100Y, DI4Y. cbv zeta.
  remember ((n - 1) / 146097) as q400 eqn:E400.
  remember ((n - 1) mod 146097) as r1 eqn:Er1.
  remember (r1 / 36524) as q100 eqn:E100.
  remember (r1 mod 36524) as r2 eqn:Er2.
  remember (r2 / 1461) as q4 eqn:E4.
  remember (r2 mod 1461) as r3 eqn:Er3.
  remember (r3 / 365) as q1 eqn:E1.
  remember (r3 mod 365) as r4 eqn:Er4.
  assert (H1 : n - 1 = 146097 * q400 + r1 /\ 0 <= r1 < 146097)
    by (subst q400 r1; Z.to_euclidean_division_equations; lia).
  assert (H2 : r1 = 36524 * q100 + r2 /\ 0 <= r2 < 36524 /\ 0 <= q100 <= 4)
    by (subst q100 r2; Z.to_euclidean_division_equations; lia).
  assert (H3 : r2 = 1461 * q4 + r3 /\ 0 <= r3 < 1461 /\ 0 <= q4 <= 24)
    by (subst q4 r3; Z.to_euclidean_division_equations; lia).
  assert (H4 : r3 = 365 * q1 + r4 /\ 0 <= r4 < 365 /\ 0 <= q1 <= 4)
    by (subst q1 r4; Z.to_euclidean_division_equations; lia).
  clear E400 Er1 E100 Er2 E4 Er3 E1 Er4.
  destruct ((q1 =? 4) || (q100 =? 4)) eqn:Hlast.
  - (* the last day of a leap year *)
    split; [lia|]. unfold days_in_month, ymd2ord, days_before_month.
    cbn [Z.eqb Pos.eqb andb DAYS_IN_MONTH DAYS_BEFORE_MONTH Z.ltb Z.compare Pos.compare Pos.compare_cont].
    split; [lia|].
    apply orb_true_iff in Hlast. rewrite !Z.eqb_eq in Hlast.
    destruct Hlast as [-> | ->].
    + replace (q400 * 400 + 1 + q100 * 100 + q4 * 4 + 4 - 1)
        with (q400 * 400 + 1 + q100 * 100 + q4 * 4 + 3) by lia.
      assert (q100 <= 3) by lia.
      rewrite is_leap_cases, days_before_year_cases by lia.
      replace (3 =? 3) with true by reflexivity. cbn [andb].
      destruct (Z.eqb_spec q4 24), (Z.eqb_spec q100 3); cbn [andb orb negb]; lia.
    + replace (q400 * 400 + 1 + 4 * 100 + q4 * 4 + q1 - 1)
        with ((q400 + 1) * 400 + 1 + 0 * 100 + 0 * 4 + (-1)) by lia.
      unfold is_leap, days_before_year. cbv zeta.
      repeat match goal with
         | |- context [?a =? ?b] => destruct (Z.eqb_spec a b)
         end; cbn [andb orb negb]; Z.to_euclidean_division_equations; lia.
  - apply orb_false_iff in Hlast. rewrite !Z.eqb_neq in Hlast.
    set (leapyear := (q1 =? 3) && (negb (q4 =? 24) || (q100 =? 3))).
    pose proof (month_day_spec leapyear r4) as Hmd.
    unfold month_day in Hmd. cbv zeta in Hmd.
    set (y := q400 * 400 + 1 + q100 * 100 + q4 * 4 + q1).
    assert (Hleap : is_leap y = leapyear) by (apply is_leap_cases; lia).
    assert (Hdby : days_before_year y = 146097 * q400 + 36524 * q100 + 1461 * q4 + 365 * q1)
      by (apply days_before_year_cases; lia).
    match type of Hmd with
    | _ -> match (if ?c then _ else _) with _ => _ end =>
        destruct c
    end;
    (destruct Hmd as (Hm & Hd & Hsum); [destruct leapyear; lia|];
     unfold days_in_month, ymd2ord, days_before_month;
     rewrite Hleap, Hdby; split; [exact Hm|]; split;
     [ exact Hd | lia ]).
Qed.

(** Each year adds its length to the count of days. *)
Lemma days_before_year_succ (y : Z) :
  days_before_year (y + 1) = days_before_year y + 365 + (if is_leap y then 1 else 0).
Proof.
  unfold days_before_year, is_leap. cbv zeta.
  repeat match goal with
         | |- context [?a =? ?b] => destruct (Z.eqb_spec a b)
         end; cbn [andb orb negb]; Z.to_euclidean_division_equations; lia.
Qed.

Lemma days_before_year_mono (y1 y2 : Z) :
  y1 <= y2 -> days_before_year y1 <= days_before_year y2.
Proof.
  intros Hle. pattern y2. apply (Z.le_ind _ ltac:(intros ? ? ->; tauto) y1);
    [lia | | exact Hle].
  intros m _ IH. replace (Z.succ m) with (m + 1) by lia.
  rewrite days_before_year_succ. destruct (is_leap m); lia.
Qed.

(** Position of a valid day within its year. *)
Lemma day_of_year_bounds (y m d : Z) :
  1 <= m <= 12 -> 1 <= d <= days_in_month y m ->
  1 <= days_before_month y m + d <= 365 + (if is_leap y then 1 else 0).
Proof.
  intros Hm. unfold days_in_month, days_before_month.
  assert (Hc : m = 1 \/ m = 2 \/ m = 3 \/ m = 4 \/ m = 5 \/ m = 6 \/ m = 7
               \/ m = 8 \/ m = 9 \/ m = 10 \/ m = 11 \/ m = 12) by lia.
  destruct (is_leap y);
    repeat (destruct Hc as [-> | Hc]); try subst m; calendar_calc; lia.
Qed.

Lemma month_order_in_year (y m1 d1 m2 d2 : Z) :
  1 <= m1 -> m1 < m2 -> m2 <= 12 ->
  d1 <= days_in_month y m1 -> 1 <= d2 ->
  days_before_month y m1 + d1 < days_before_month y m2 + d2.
Proof.
  intros H1 H12 H2. unfold days_in_month, days_before_month.
  assert (Hc1 : m1 = 1 \/ m1 = 2 \/ m1 = 3 \/ m1 = 4 \/ m1 = 5 \/ m1 = 6 \/ m1 = 7
               \/ m1 = 8 \/ m1 = 9 \/ m1 = 10 \/ m1 = 11) by lia.
  assert (Hc2 : m2 = m1 + 1 \/ 2 + m1 <= m2) by lia.
  destruct (is_leap y);
    repeat (destruct Hc1 as [-> | Hc1]); try subst m1;
    (destruct Hc2 as [-> | Hc2];
     [ change (1 + 1) with 2; change (2 + 1) with 3; change (3 + 1) with 4;
       change (4 + 1) with 5; change (5 + 1) with 6; change (6 + 1) with 7;
       change (7 + 1) with 8; change (8 + 1) with 9; change (9 + 1) with 10;
       change (10 + 1) with 11; change (11 + 1) with 12; calendar_calc; lia
     | assert (Hc : m2 = 1 \/ m2 = 2 \/ m2 = 3 \/ m2 = 4 \/ m2 = 5 \/ m2 = 6 \/ m2 = 7
               \/ m2 = 8 \/ m2 = 9 \/ m2 = 10 \/ m2 = 11 \/ m2 = 12) by lia;
       repeat (destruct Hc as [-> | Hc]); try subst m2; try lia; calendar_calc; lia ]).
Qed.

(** [ymd2ord] respects the order of (year, month). *)
Lemma ymd2ord_lt (y1 m1 d1 y2 m2 d2 : Z) :
  1 <= m1 <= 12 -> 1 <= d1 <= days_in_month y1 m1 ->
  1 <= m2 <= 12 -> 1 <= d2 <= days_in_month y2 m2 ->
  y1 * 12 + m1 < y2 * 12 + m2 ->
  ymd2ord y1 m1 d1 < ymd2ord y2 m2 d2.
Proof.
  intros Hm1 Hd1 Hm2 Hd2 Hlt. unfold ymd2ord.
  destruct (Z.eq_dec y1 y2) as [-> | Hy].
  - pose proof (month_order_in_year y2 m1 d1 m2 d2). lia.
  - assert (Hy' : y1 + 1 <= y2) by lia.
    pose proof (days_before_year_mono _ _ Hy') as Hmono.
    rewrite days_before_year_succ in Hmono.
    pose proof (day_of_year_bounds y1 m1 d1 Hm1 Hd1).
    pose proof (day_of_year_bounds y2 m2 d2 Hm2 Hd2).
    lia.
Qed.

Lemma month_bounds (d : datetime) : 1 <= month d <= 12.
Proof.
  unfold month. pose proof (ord2ymd_spec (toordinal d)) as H.
  destruct (ord2ymd (toordinal d)) as [[y m] dd]. tauto.
Qed.

(** Later dates do not fall in earlier months. *)
Lemma month_index_mono (a b : datetime) :
  toordinal a <= toordinal b -> month_index a <= month_index b.
Proof.
  intros Hle. unfold month_index, year, month.
  pose proof (ord2ymd_spec (toordinal a)) as Ha.
  pose proof (ord2ymd_spec (toordinal b)) as Hb.
  destruct (ord2ymd (toordinal a)) as [[ya ma] da].
  destruct (ord2ymd (toordinal b)) as [[yb mb] db].
  cbn [fst snd].
  destruct Ha as (Hma & Hda & Ea), Hb as (Hmb & Hdb & Eb).
  destruct (Z_lt_le_dec (yb * 12 + mb) (ya * 12 + ma)) as [Hlt | Hge]; [|lia].
  pose proof (ymd2ord_lt _ _ _ _ _ _ Hmb Hdb Hma Hda Hlt). lia.
Qed.

(** The years of the supported range. *)
Lemma year_bounds (d : datetime) : in_range d -> 1 <= year d <= 9999.
Proof.
  unfold in_range, MAXORDINAL, year. intros Hr.
  pose proof (ord2ymd_spec (toordinal d)) as H.
  destruct (ord2ymd (toordinal d)) as [[y m] dd]. cbn [fst].
  destruct H as (Hm & Hd & E).
  split.
  - destruct (Z_lt_le_dec y 1) as [Hlt | ]; [|assumption].
    assert (H1 : ymd2ord y m dd < ymd2ord 1 1 1)
      by (apply ymd2ord_lt; try assumption; cbn; lia).
    cbn in H1. lia.
  - destruct (Z_lt_le_dec 9999 y) as [Hlt | ]; [|assumption].
    assert (H1 : ymd2ord 9999 12 31 < ymd2ord y m dd)
      by (apply ymd2ord_lt; try assumption; cbn; lia).
    cbn in H1. lia.
Qed.

(** ** Reading [MM/YYYY] back *)

Lemma reads_back_table :
  forallb reads_back (map Z.of_nat (seq 1 (Z.to_nat 9999))) = true.
Proof. vm_compute. reflexivity. Qed.

Lemma parse_format_year (y : Z) :
  1 <= y <= 9999 -> parse_number (Py.format_0d 4 y) = Some y.
Proof.
  intros Hy. pose proof reads_back_table as T.
  rewrite forallb_forall in T. specialize (T y).
  unfold reads_back in T.
  destruct (parse_number _) as [v|].
  - f_equal. apply Z.eqb_eq, T, in_map_iff. exists (Z.to_nat y).
    split; [lia|]. apply in_seq. lia.
  - exfalso. enough (false = true) by discriminate. apply T, in_map_iff.
    exists (Z.to_nat y). split; [lia|]. apply in_seq. lia.
Qed.

Lemma parse_format_mY (m y : Z) :
  1 <= m <= 12 -> 1 <= y <= 9999 ->
  parse_mY (Py.format_0d 2 m ++ "/" ++ Py.format_0d 4 y) = Some (y * 12 + (m - 1)).
Proof.
  intros Hm Hy. pose proof (parse_format_year y Hy) as Py.
  assert (Hc : m = 1 \/ m = 2 \/ m = 3 \/ m = 4 \/ m = 5 \/ m = 6 \/ m = 7
               \/ m = 8 \/ m = 9 \/ m = 10 \/ m = 11 \/ m = 12) by lia.
  generalize dependent (Py.format_0d 4 y). intros yyyy Py.
  repeat (destruct Hc as [-> | Hc]); try subst m;
    match goal with
    | |- context [Py.format_0d 2 ?k] =>
        let v := eval vm_compute in (Py.format_0d 2 k) in
        change (Py.format_0d 2 k) with v
    end;
    unfold parse_mY; cbn [String.append split_at Ascii.eqb Bool.eqb];
    rewrite Py; vm_compute parse_number; cbv iota;
    reflexivity.
Qed.

(** The text that [strftime('%m/%Y')] prints denotes the month of the date. *)
Lemma parse_strftime_mY (d : datetime) :
  in_range d -> parse_mY (strftime_mY d) = Some (month_index d).
Proof.
  intros Hr. unfold strftime_mY, month_index.
  apply parse_format_mY; [apply month_bounds | now apply year_bounds].
Qed.

Lemma strftime_mY_not_present (d : datetime) :
  in_range d -> strftime_mY d <> "Present".
Proof.
  intros Hr E. pose proof (parse_strftime_mY d Hr) as P.
  rewrite E in P. discriminate P.
Qed.

Lemma sub_days_some (d : datetime) (k : Z) :
  0 <= k -> k < toordinal d <= MAXORDINAL ->
  exists d', sub_days d k = Some d' /\ toordinal d' = toordinal d - k.
Proof.
  intros Hk Hd. unfold sub_days.
  destruct (Z.ltb_spec 0 (toordinal d - k)); [|lia].
  destruct (Z.leb_spec (toordinal d - k) MAXORDINAL); [|lia].
  eexists; split; reflexivity.
Qed.

(** ** Sample dates *)

Example ord2ymd_samples :
  map ord2ymd [1; 730179; 730180; 739052; 3652059]
  = [(1, 1, 1); (2000, 2, 29); (2000, 3, 1); (2024, 6, 15); (9999, 12, 31)].
Proof. reflexivity. Qed.

Example ymd2ord_samples :
  map (fun '(y, m, d) => ymd2ord y m d)
      [(1, 1, 1); (2000, 2, 29); (2024, 6, 15); (9999, 12, 31)]
  = [1; 730179; 739052; MAXORDINAL].
Proof. reflexivity. Qed.

Example strftime_samples :
  strftime_stamp sample_time = "20240615_130509"
  /\ strftime_mY sample_time = "06/2024".
Proof. split; reflexivity. Qed.

End DatetimeFacts.

(* ================================================================== *)
(** * Strings *)
(* ================================================================== *)

Module StringFacts.

Import Props.

Lemma append_assoc (a b c : string) : (a ++ b) ++ c = a ++ b ++ c.
Proof. induction a as [|x a IH]; cbn; [reflexivity | now rewrite IH]. Qed.

Lemma length_append (a b : string) :
  String.length (a ++ b) = (String.length a + String.length b)%nat.
Proof. induction a as [|x a IH]; cbn; [reflexivity | now rewrite IH]. Qed.

Lemma chars_append (a b : string) :
  list_ascii_of_string (a ++ b)
  = (list_ascii_of_string a ++ list_ascii_of_string b)%list.
Proof. induction a as [|x a IH]; cbn; [reflexivity | now rewrite IH]. Qed.

(** Two texts that end in tails of the same length end in the same tail. *)
Lemma same_length_tail (a a' b b' : string) :
  String.length b = String.length b' -> a ++ b = a' ++ b' -> b = b'.
Proof.
  revert a'; induction a as [|x a IH]; intros [|x' a'] Hlen Heq; cbn in Heq.
  - exact Heq.
  - exfalso. apply (f_equal String.length) in Heq.
    cbn in Heq. rewrite length_append in Heq. lia.
  - exfalso. apply (f_equal String.length) in Heq.
    cbn in Heq. rewrite length_append in Heq. lia.
  - injection Heq as _ Heq. now apply (IH a').
Qed.

Lemma append_nonempty_neq (a b : string) : b <> "" -> a <> a ++ b.
Proof.
  intros Hb Heq. apply (f_equal String.length) in Heq.
  rewrite length_append in Heq. destruct b; [congruence | cbn in Heq; lia].
Qed.

(** ** [str.replace] on single characters *)

Lemma replace_delete_chars (old : ascii) (s : string) :
  list_ascii_of_string (Py.replace old "" s)
  = filter (fun c => negb (Ascii.eqb c old)) (list_ascii_of_string s).
Proof.
  induction s as [|c s IH]; cbn; [reflexivity|].
  destruct (Ascii.eqb c old); cbn; now rewrite IH.
Qed.

Lemma replace_char_chars (old new : ascii) (s : string) :
  list_ascii_of_string (Py.replace old (String new "") s)
  = map (fun c => if Ascii.eqb c old then new else c) (list_ascii_of_string s).
Proof.
  induction s as [|c s IH]; cbn; [reflexivity|].
  destruct (Ascii.eqb c old); cbn; now rewrite IH.
Qed.

(** [sanitize] drops the commas and turns the spaces into underscores;
    every other character stays. *)
Lemma sanitize_chars (name : string) :
  list_ascii_of_string (CV.sanitize name)
  = sanitized_chars (list_ascii_of_string name).
Proof.
  unfold CV.sanitize, sanitized_chars.
  rewrite replace_delete_chars, replace_char_chars.
  induction (list_ascii_of_string name) as [|c cs IH]; cbn; [reflexivity|].
  destruct (Ascii.eqb_spec c " ") as [-> | Hsp]; cbn.
  - now rewrite IH.
  - destruct (Ascii.eqb_spec c ",") as [-> | Hc]; cbn.
    + exact IH.
    + destruct (Ascii.eqb_spec c " "); [contradiction|]. now rewrite IH.
Qed.

Lemma sanitize_no_space_no_comma (name : string) (c : ascii) :
  In c (list_ascii_of_string (CV.sanitize name)) -> c <> " "%char /\ c <> ","%char.
Proof.
  rewrite sanitize_chars. unfold sanitized_chars. intros Hin.
  apply in_map_iff in Hin. destruct Hin as (c0 & Hc & Hin0).
  apply filter_In in Hin0. destruct Hin0 as (_ & Hcomma).
  apply negb_true_iff, Ascii.eqb_neq in Hcomma.
  destruct (Ascii.eqb_spec c0 " ") as [Esp | Hsp]; subst c.
  - split; discriminate.
  - split; assumption.
Qed.

(** ** The index suffix of batch file names *)

Lemma suffix_table : forallb suffix_ok (Effects.range 20) = true.
Proof. vm_compute. reflexivity. Qed.

Lemma format_index (i : Z) :
  0 <= i < 20 -> Py.format_0d 3 (i + 1) = three_digits (i + 1).
Proof.
  intros Hi. pose proof suffix_table as T. rewrite forallb_forall in T.
  apply String.eqb_eq, T. unfold Effects.range. apply in_map_iff.
  exists (Z.to_nat i). split; [lia | apply in_seq; lia].
Qed.

Lemma suffix_pairs_table :
  forallb (fun i => forallb (suffixes_differ i) (Effects.range 20)) (Effects.range 20) = true.
Proof. vm_compute. reflexivity. Qed.

Lemma three_digits_inj (i j : Z) :
  0 <= i < 20 -> 0 <= j < 20 ->
  three_digits (i + 1) = three_digits (j + 1) -> i = j.
Proof.
  intros Hi Hj Heq. pose proof suffix_pairs_table as T.
  assert (Hin : forall k, 0 <= k < 20 -> In k (Effects.range 20)).
  { intros k Hk. unfold Effects.range. apply in_map_iff.
    exists (Z.to_nat k). split; [lia | apply in_seq; lia]. }
  rewrite forallb_forall in T. specialize (T i (Hin i Hi)).
  rewrite forallb_forall in T. specialize (T j (Hin j Hj)).
  unfold suffixes_differ in T. rewrite Heq, String.eqb_refl in T.
  now apply Z.eqb_eq.
Qed.

(** A batch file name in the shape that shows its index last. *)
Lemma cv_filename_indexed (name timestamp : string) (i : Z) :
  CV.cv_filename name timestamp (Some i)
  = ("CV_" ++ CV.sanitize name ++ "_" ++ timestamp ++ "_")
    ++ Py.format_0d 3 i ++ ".pdf".
Proof.
  unfold CV.cv_filename. rewrite !append_assoc. reflexivity.
Qed.

(** Batch file names with different indices differ, whatever the names
    and the time stamps. *)
Lemma cv_filename_index_inj (name name' timestamp timestamp' : string) (i j : Z) :
  0 <= i < 20 -> 0 <= j < 20 ->
  CV.cv_filename name timestamp (Some (i + 1))
  = CV.cv_filename name' timestamp' (Some (j + 1)) ->
  i = j.
Proof.
  intros Hi Hj Heq. rewrite !cv_filename_indexed in Heq.
  rewrite (format_index i Hi), (format_index j Hj) in Heq.
  apply same_length_tail in Heq; [|reflexivity].
  apply three_digits_inj; try assumption.
  apply (f_equal (fun s => String.substring 0 3 s)) in Heq.
  exact Heq.
Qed.

(** ** Sample texts *)

Example sanitize_sample : CV.sanitize "Lee, Ann  M." = "Lee_Ann__M.".
Proof. reflexivity. Qed.

Example format_0d_samples :
  map (Py.format_0d 3) [1; 20; 1234] = ["001"; "020"; "1234"].
Proof. reflexivity. Qed.

Example repr_hundredths_samples :
  map Py.repr_hundredths [300; 307; 350; 357; 400]
  = ["3.0"; "3.07"; "3.5"; "3.57"; "4.0"].
Proof. reflexivity. Qed.

Example join_sample : Py.join ", " ["Python"; "SQL"; "Git"] = "Python, SQL, Git".
Proof. reflexivity. Qed.

End StringFacts.

(* ================================================================== *)
(** * Reasoning about runs *)
(* ================================================================== *)

Module RunFacts.

Import Datetime Effects Props.

Lemma returns_ret {A : Type} (a : A) (w : world) (P : A -> world -> Prop) :
  P a w -> returns (ret a) w P.
Proof. intros H. exists a, w. split; [reflexivity | exact H]. Qed.

Lemma returns_bind {A B : Type} (m : M A) (k : A -> M B) (w : world)
      (Q : A -> world -> Prop) (P : B -> world -> Prop) :
  returns m w Q ->
  (forall a w', Q a w' -> returns (k a) w' P) ->
  returns (bind m k) w P.
Proof.
  intros (a & w' & Hm & Hq) Hk.
  destruct (Hk a w' Hq) as (b & w'' & Hb & Hp).
  exists b, w''. split; [|exact Hp]. unfold bind. now rewrite Hm.
Qed.

Lemma returns_mono {A : Type} (m : M A) (w : world) (P Q : A -> world -> Prop) :
  returns m w P -> (forall a w', P a w' -> Q a w') -> returns m w Q.
Proof. intros (a & w' & Hm & Hp) H. exists a, w'. auto. Qed.

(** A run that returns is not rejected. *)
Lemma returns_not_rejected {A : Type} (m : M A) (w : world) (P : A -> world -> Prop) :
  returns m w P -> ~ rejected (m w).
Proof. intros (a & w' & Hm & _) (detail & Hr). rewrite Hm in Hr. discriminate Hr. Qed.

Lemma mapM_returns {I A : Type} (body : I -> M A) (Q : I -> A -> Prop) (xs : list I) :
  (forall i, In i xs -> forall w, returns (body i) w (fun a _ => Q i a)) ->
  forall w, returns (mapM body xs) w (fun out _ => Forall2 Q xs out).
Proof.
  induction xs as [|i xs IH]; intros Hbody w; cbn [mapM].
  - apply returns_ret. constructor.
  - eapply returns_bind; [apply Hbody; now left|].
    intros a w1 Ha. cbv beta in Ha.
    eapply returns_bind; [apply IH; intros; apply Hbody; now right|].
    intros out w2 Hout. apply returns_ret. now constructor.
Qed.

(** A loop whose body appends one element per round. *)
Lemma foldM_appends {I A : Type} (body : list A -> I -> M (list A))
      (Q : I -> A -> Prop) (xs : list I) :
  (forall acc i, In i xs -> forall w,
      returns (body acc i) w (fun acc' _ => exists e, acc' = (acc ++ [e])%list /\ Q i e)) ->
  forall acc w,
    returns (foldM body xs acc) w
      (fun out _ => exists es, out = (acc ++ es)%list /\ Forall2 Q xs es).
Proof.
  induction xs as [|i xs IH]; intros Hbody acc w; cbn [foldM].
  - apply returns_ret. exists []. split; [now rewrite app_nil_r | constructor].
  - eapply returns_bind; [apply Hbody; now left|].
    intros acc' w1 (e & -> & He).
    eapply returns_mono; [apply IH; intros; apply Hbody; now right|].
    intros out _ (es & -> & Hes). exists (e :: es). split.
    + now rewrite <- app_assoc.
    + now constructor.
Qed.

(** ** Lists related element by element *)

Lemma Forall2_right {I A : Type} (P : A -> Prop) (xs : list I) (out : list A) :
  Forall2 (fun _ a => P a) xs out -> Forall P out.
Proof. induction 1; constructor; assumption. Qed.

Lemma Forall2_entries {A : Type} (Q : Z -> A -> Prop) (P : A -> Prop)
      (R : Z -> Prop) (xs : list Z) (out : list A) :
  Forall2 Q xs out -> Forall R xs -> (forall i a, R i -> Q i a -> P a) -> Forall P out.
Proof.
  intros H. induction H as [|i a xs out Hq _ IH]; intros HR Himp; constructor.
  - inversion HR; subst. eauto.
  - inversion HR; subst. auto.
Qed.

Lemma Forall2_nth {I A : Type} (Q : I -> A -> Prop) (xs : list I) (out : list A)
      (k : nat) (i : I) :
  Forall2 Q xs out -> nth_error xs k = Some i ->
  exists a, nth_error out k = Some a /\ Q i a.
Proof.
  intros H. revert k. induction H as [|i0 a xs out Hq _ IH]; intros k Hk.
  - destruct k; discriminate.
  - destruct k as [|k]; cbn in *.
    + injection Hk as <-. eauto.
    + now apply IH.
Qed.

(** ** [range] *)

Lemma range_nonpositive (n : Z) : n <= 0 -> range n = [].
Proof.
  intros Hn. unfold range. replace (Z.to_nat n) with 0%nat by lia. reflexivity.
Qed.

Lemma range_length (n : Z) : List.length (range n) = Z.to_nat n.
Proof. unfold range. now rewrite length_map, length_seq. Qed.

Lemma range_In (n i : Z) : In i (range n) <-> 0 <= i < n.
Proof.
  unfold range. rewrite in_map_iff. split.
  - intros (k & <- & Hk). apply in_seq in Hk. lia.
  - intros Hi. exists (Z.to_nat i). split; [lia|]. apply in_seq. lia.
Qed.

Lemma range_nth (n : Z) (k : nat) :
  (k < Z.to_nat n)%nat -> nth_error (range n) k = Some (Z.of_nat k).
Proof.
  intros Hk. unfold range. rewrite nth_error_map.
  rewrite nth_error_seq. destruct (Nat.ltb_spec k (Z.to_nat n)); [reflexivity|lia].
Qed.

Lemma range_cons (n : Z) :
  0 < n -> exists rest, range n = 0 :: rest /\ Forall (fun i => 0 < i < n) rest.
Proof.
  intros Hn. unfold range.
  destruct (Z.to_nat n) as [|k] eqn:Hk; [lia|].
  cbn [seq map]. eexists; split; [reflexivity|].
  apply Forall_forall. intros i Hi. apply in_map_iff in Hi.
  destruct Hi as (j & <- & Hj). apply in_seq in Hj. lia.
Qed.

Lemma Forall2_length_Z {A : Type} (Q : Z -> A -> Prop) (n : Z) (out : list A) :
  Forall2 Q (range n) out -> List.length out = Z.to_nat n.
Proof.
  intros H. apply Forall2_length in H. now rewrite range_length in H.
Qed.

Lemma range_NoDup (n : Z) : NoDup (range n).
Proof.
  unfold range. apply Injective_map_NoDup; [|apply seq_NoDup].
  intros a b Hab. lia.
Qed.

(** ** The primitives *)

Section Primitives.

Variable E : Env.

Lemma draw_returns (w : world) : returns (draw E) w (fun _ _ => True).
Proof. eexists _, _. split; [reflexivity | exact I]. Qed.

Lemma fake_returns (k : fake_kind) (w : world) :
  returns (fake E k) w (fun s _ => s = faker E k (faked w)).
Proof. eexists _, _. split; reflexivity. Qed.

Lemma now_returns (w : world) :
  returns (now E) w (fun d _ => d = clock E (ticks w)).
Proof. eexists _, _. split; reflexivity. Qed.

Lemma randint_returns (a b : Z) (w : world) :
  a <= b -> returns (randint E a b) w (fun r _ => a <= r <= b).
Proof.
  intros Hab. unfold randint.
  eapply returns_bind; [apply draw_returns|].
  intros n w' _. apply returns_ret.
  pose proof (Z.mod_pos_bound (Z.of_nat n) (b - a + 1) ltac:(lia)). lia.
Qed.

Lemma choice_returns {A : Type} (d : A) (xs : list A) (w : world) :
  xs <> [] -> returns (choice E d xs) w (fun x _ => In x xs).
Proof.
  intros Hne. unfold choice.
  eapply returns_bind; [apply draw_returns|].
  intros n w' _. apply returns_ret. apply nth_In.
  apply Nat.mod_upper_bound. destruct xs; [congruence | discriminate].
Qed.

Lemma remove_nth_length {A : Type} (j : nat) (xs : list A) :
  (j < List.length xs)%nat -> List.length (remove_nth j xs) = Nat.pred (List.length xs).
Proof.
  revert j; induction xs as [|x xs IH]; intros j Hj; [inversion Hj|].
  destruct j as [|j]; [reflexivity|]. cbn [remove_nth List.length] in *.
  rewrite IH by lia. destruct xs; [cbn in Hj; lia | reflexivity].
Qed.

Lemma remove_nth_incl {A : Type} (j : nat) (xs : list A) :
  incl (remove_nth j xs) xs.
Proof.
  revert j; induction xs as [|x xs IH]; intros j; [destruct j; apply incl_refl|].
  destruct j as [|j]; cbn [remove_nth].
  - apply incl_tl, incl_refl.
  - intros y [->|Hy]; [now left | right; now apply (IH j)].
Qed.

Lemma sample_loop_returns {A : Type} (d : A) (k : nat) (pool : list A) (w : world) :
  (k <= List.length pool)%nat ->
  returns (sample_loop E d k pool) w
    (fun out _ => List.length out = k /\ incl out pool).
Proof.
  revert pool w; induction k as [|k IH]; intros pool w Hk; cbn [sample_loop].
  - apply returns_ret. split; [reflexivity | intros x []].
  - eapply returns_bind; [apply draw_returns|].
    intros n w' _.
    assert (Hj : (n mod List.length pool < List.length pool)%nat)
      by (apply Nat.mod_upper_bound; lia).
    eapply returns_bind.
    + apply IH. rewrite remove_nth_length by exact Hj. lia.
    + intros out w'' (Hlen & Hincl). apply returns_ret. split.
      * cbn. now rewrite Hlen.
      * intros x [<-|Hx]; [now apply nth_In|].
        now apply (remove_nth_incl (n mod List.length pool)), Hincl.
Qed.

Lemma sample_returns {A : Type} (d : A) (population : list A) (k : Z) (w : world) :
  0 <= k <= Z.of_nat (List.length population) ->
  returns (sample E d population k) w
    (fun out _ => Z.of_nat (List.length out) = k /\ incl out population).
Proof.
  intros Hk. unfold sample.
  destruct (Z.ltb_spec k 0); [lia|].
  destruct (Z.ltb_spec (Z.of_nat (List.length population)) k); [lia|].
  cbn [orb]. eapply returns_mono; [apply sample_loop_returns; lia|].
  intros out _ (Hlen & Hincl). split; [lia | exact Hincl].
Qed.

Lemma round_uniform_returns (w : world) :
  returns (round_uniform_3_4 E) w (fun g _ => 300 <= g <= 400).
Proof.
  unfold round_uniform_3_4.
  eapply returns_bind; [apply draw_returns|].
  intros n w' _. apply returns_ret.
  pose proof (Z.mod_pos_bound (Z.of_nat n) 101 ltac:(lia)). lia.
Qed.

Lemma minus_days_returns (d : datetime) (k : Z) (w : world) :
  0 <= k -> k < toordinal d <= MAXORDINAL ->
  returns (minus_days d k) w (fun d' _ => toordinal d' = toordinal d - k).
Proof.
  intros Hk Hd. unfold minus_days.
  destruct (DatetimeFacts.sub_days_some d k Hk Hd) as (d' & -> & Hd').
  now apply returns_ret.
Qed.

End Primitives.

End RunFacts.

(* ================================================================== *)
(** * Properties of the composed story *)
(* ================================================================== *)

Module StoryFacts.

Import Datetime Effects CV Props.

Lemma fold_append_map {A B : Type} (f : A -> B) (xs : list A) (acc : list B) :
  fold_left (fun story x => append story (f x)) xs acc = (acc ++ map f xs)%list.
Proof.
  revert acc; induction xs as [|x xs IH]; intros acc; simpl.
  - now rewrite app_nil_r.
  - rewrite IH. unfold append. now rewrite <- app_assoc.
Qed.

Lemma fold_blocks_flat_map {A B : Type} (step : list B -> A -> list B)
      (blocks : A -> list B) (xs : list A) (acc : list B) :
  (forall story x, step story x = (story ++ blocks x)%list) ->
  fold_left step xs acc = (acc ++ flat_map blocks xs)%list.
Proof.
  intros Hstep. revert acc; induction xs as [|x xs IH]; intros acc; simpl.
  - now rewrite app_nil_r.
  - rewrite IH, Hstep. now rewrite <- app_assoc.
Qed.

(** The story in closed form: preamble, one group of blocks per
    experience entry, epilogue. *)
Lemma story_closed_form (cv_data : CVData) :
  story cv_data =
  (preamble cv_data ++ flat_map experience_blocks (experience cv_data)
   ++ epilogue cv_data)%list.
Proof.
  unfold story.
  rewrite (fold_blocks_flat_map _ experience_blocks).
  2:{ intros s x. rewrite fold_append_map. unfold append, experience_blocks.
      simpl. rewrite <- !app_assoc. reflexivity. }
  rewrite (fold_blocks_flat_map _ education_blocks).
  2:{ intros s x. unfold append, education_blocks. now rewrite <- app_assoc. }
  rewrite ?fold_append_map.
  unfold epilogue, preamble, append.
  destruct (certifications cv_data) as [|c cs] eqn:Hc; cbn [Py.truthy_list certification_blocks].
  - cbn [app]. rewrite <- ?app_assoc. cbn [app]. rewrite ?app_nil_r. reflexivity.
  - cbn [app]. rewrite <- ?app_assoc. cbn [app]. reflexivity.
Qed.

Lemma texts_styled_app (s : StyleName) (xs ys : list Flowable) :
  texts_styled s (xs ++ ys) = (texts_styled s xs ++ texts_styled s ys)%list.
Proof.
  induction xs as [|b xs IH]; simpl; [reflexivity|].
  destruct b as [t st|w h]; [|exact IH].
  destruct (style_eqb st s); simpl; now rewrite IH.
Qed.

Lemma texts_styled_normal_map {A : Type} (s : StyleName) (f : A -> string) (xs : list A) :
  s <> Normal ->
  texts_styled s (map (fun x => Paragraph (f x) Normal) xs) = [].
Proof.
  intros Hs. induction xs as [|x xs IH]; simpl; [reflexivity|].
  destruct s; try congruence; exact IH.
Qed.

Lemma texts_styled_experience (s : StyleName) (exps : list Experience) :
  s <> Normal -> texts_styled s (flat_map experience_blocks exps) = [].
Proof.
  intros Hs. induction exps as [|e exps IH]; simpl; [reflexivity|].
  rewrite <- app_assoc, !texts_styled_app, IH, texts_styled_normal_map by exact Hs.
  destruct s; try congruence; reflexivity.
Qed.

Lemma texts_styled_education (s : StyleName) (edus : list Education) :
  s <> Normal -> texts_styled s (flat_map education_blocks edus) = [].
Proof.
  intros Hs. induction edus as [|e edus IH]; simpl; [reflexivity|].
  destruct s; try congruence; exact IH.
Qed.

(** The section headers of a story, in order. *)
Lemma section_headers (cv_data : CVData) :
  texts_styled SectionHeader (story cv_data) =
  ([ "PROFESSIONAL SUMMARY"; "WORK EXPERIENCE"; "EDUCATION"; "SKILLS" ]
   ++ (if Py.truthy_list (certifications cv_data) then ["CERTIFICATIONS"] else []))%list.
Proof.
  rewrite story_closed_form. unfold preamble, epilogue.
  rewrite !texts_styled_app, texts_styled_experience, texts_styled_education
    by discriminate.
  destruct (certifications cv_data) as [|c cs]; [reflexivity|].
  unfold certification_blocks. cbn [texts_styled style_eqb app Py.truthy_list].
  rewrite texts_styled_normal_map by discriminate. reflexivity.
Qed.

(** Only the first block of a story has the title style. *)
Lemma title_blocks (cv_data : CVData) :
  texts_styled CVTitle (story cv_data) = [name (personal cv_data)].
Proof.
  rewrite story_closed_form. unfold preamble, epilogue.
  rewrite !texts_styled_app, texts_styled_experience, texts_styled_education
    by discriminate.
  destruct (certifications cv_data) as [|c cs]; [reflexivity|].
  unfold certification_blocks. cbn [texts_styled style_eqb app].
  rewrite texts_styled_normal_map by discriminate. reflexivity.
Qed.

(** ** C1 *)

(** C1.  The story of any record starts with the title block, which
    carries the personal name in style [CVTitle], and no other block has
    that style; and when the certifications list is empty, no section
    header of the story reads CERTIFICATIONS. *)
Theorem C1_title_first_certifications_omitted (cv_data : CVData) :
  (exists rest,
      story cv_data = Paragraph (name (personal cv_data)) CVTitle :: rest
      /\ texts_styled CVTitle rest = [])
  /\ (certifications cv_data = [] ->
      ~ In "CERTIFICATIONS" (texts_styled SectionHeader (story cv_data))
      /\ ~ In (Paragraph "CERTIFICATIONS" SectionHeader) (story cv_data)).
Proof.
  split.
  - pose proof (title_blocks cv_data) as Ht.
    rewrite story_closed_form in *. unfold preamble in *.
    cbn [app] in *. eexists; split; [reflexivity|].
    cbn [texts_styled style_eqb] in Ht. now injection Ht.
  - intros Hc.
    assert (Hno : ~ In "CERTIFICATIONS" (texts_styled SectionHeader (story cv_data))).
    { rewrite section_headers, Hc. cbn.
      intros [H|[H|[H|[H|[]]]]]; discriminate H. }
    split; [exact Hno|].
    intros Hin. apply Hno. clear Hno.
    induction (story cv_data) as [|b bs IH]; [contradiction|].
    destruct Hin as [->|Hin]; [now left|].
    specialize (IH Hin). simpl.
    destruct b as [t [] |w h]; simpl; auto.
Qed.

Lemma C1_witness :
  certifications (sample_cv []) = []
  /\ ~ In (Paragraph "CERTIFICATIONS" SectionHeader) (story (sample_cv [])).
Proof.
  split; [reflexivity|].
  apply (C1_title_first_certifications_omitted (sample_cv [])). reflexivity.
Defined.

(** ** C5 *)

Lemma prefix_nil (s : string) : String.prefix "" s = true.
Proof. destruct s; reflexivity. Qed.

Lemma header_is_bold (exp : Experience) :
  is_bold_paragraph (Paragraph (exp_header exp) Normal) = true.
Proof.
  unfold exp_header. cbn [is_bold_paragraph String.append String.prefix].
  repeat match goal with
         | |- context [ascii_dec ?a ?b] => destruct (ascii_dec a b); [|congruence]
         end.
  apply prefix_nil.
Qed.

Lemma bullet_is_not_bold (t : string) :
  is_bold_paragraph (Paragraph (bullet ++ t) Normal) = false.
Proof.
  unfold bullet. cbn [is_bold_paragraph String.append String.prefix].
  destruct (ascii_dec _ _) as [Heq|_]; [discriminate Heq | reflexivity].
Qed.

Lemma bold_headers_of_section (exps : list Experience) :
  filter is_bold_paragraph (flat_map experience_blocks exps)
  = map (fun exp => Paragraph (exp_header exp) Normal) exps.
Proof.
  induction exps as [|e exps IH]; [reflexivity|].
  cbn [flat_map map]. unfold experience_blocks at 1.
  rewrite <- app_comm_cons, <- app_assoc.
  cbn [filter]. rewrite header_is_bold.
  rewrite !filter_app, IH. f_equal.
  replace (filter is_bold_paragraph
             (map (fun resp => Paragraph (bullet ++ resp) Normal) (responsibilities e)))
    with (@nil Flowable); [reflexivity|].
  induction (responsibilities e) as [|r rs IHr]; [reflexivity|].
  cbn [map filter]. now rewrite bullet_is_not_bold.
Qed.

(** C5.  The blocks between the WORK EXPERIENCE header and the EDUCATION
    header are, for each experience entry in the order of the list, its
    header, one bullet per responsibility and a spacer; the header blocks
    among them are exactly the headers of the entries, in order, so there
    are as many as entries. *)
Theorem C5_experience_section (cv_data : CVData) :
  exists section rest,
    story cv_data = (preamble cv_data ++ section
                     ++ Paragraph "EDUCATION" SectionHeader :: rest)%list
    /\ section
       = flat_map
           (fun exp =>
              Paragraph (exp_header exp) Normal
              :: map (fun resp => Paragraph (bullet ++ resp) Normal) (responsibilities exp)
              ++ [Spacer 1 8])%list
           (experience cv_data)
    /\ filter is_bold_paragraph section
       = map (fun exp => Paragraph (exp_header exp) Normal) (experience cv_data)
    /\ List.length (filter is_bold_paragraph section) = List.length (experience cv_data).
Proof.
  exists (flat_map experience_blocks (experience cv_data)).
  eexists. split; [|split; [|split]].
  - rewrite story_closed_form. unfold epilogue. cbn [app]. reflexivity.
  - reflexivity.
  - apply bold_headers_of_section.
  - now rewrite bold_headers_of_section, length_map.
Qed.

(** ** C7 *)

Lemma in_story_of_experience (cv_data : CVData) (exp : Experience) :
  In exp (experience cv_data) ->
  In (Paragraph (exp_header exp) Normal) (story cv_data).
Proof.
  intros Hin. rewrite story_closed_form.
  apply in_or_app; right. apply in_or_app; left.
  apply in_flat_map. exists exp. split; [exact Hin | now left].
Qed.

(** C7 (as amended).  The header of each experience entry is the
    paragraph that reads: the position in bold markup, a hyphen between
    spaces, the company, and in parentheses the start date, a hyphen
    between spaces and the end date.  The dashes are ASCII hyphens. *)
Theorem C7_experience_header_text (cv_data : CVData) (exp : Experience) :
  In exp (experience cv_data) ->
  In (Paragraph
        ("<b>" ++ position exp ++ "</b> - " ++ company exp
         ++ " (" ++ start_date exp ++ " - " ++ end_date exp ++ ")")
        Normal)
     (story cv_data).
Proof. exact (in_story_of_experience cv_data exp). Qed.

Lemma C7_witness :
  In sample_exp (experience (sample_cv []))
  /\ In (Paragraph "<b>Data Analyst</b> - Innovation Labs (03/2021 - Present)" Normal)
        (story (sample_cv [])).
Proof.
  assert (H : In sample_exp (experience (sample_cv []))) by (left; reflexivity).
  split; [exact H|].
  exact (C7_experience_header_text (sample_cv []) sample_exp H).
Defined.

(** The header that the code composes is not the one with em and en
    dashes: it has no byte of a dash (226 opens both in UTF-8) and it has
    markup around the position. *)
Lemma C7_counterexample :
  exp_header sample_exp <> spec_exp_header sample_exp
  /\ count_char "226" (exp_header sample_exp) = 0%nat
  /\ count_char "226" (spec_exp_header sample_exp) = 2%nat.
Proof. split; [discriminate | split; reflexivity]. Qed.

(** ** C8 *)

(** C8 (as amended).  The second block of the story is the one paragraph
    of style [ContactInfo]; its text has the e-mail address and the phone
    number joined by a vertical bar between spaces, then, each after a
    line-break tag and on a line of its own, the address and the LinkedIn
    handle. *)
Theorem C8_contact_block (cv_data : CVData) :
  let p := personal cv_data in
  let text :=
    nl ++ indent ++ email p ++ " | " ++ phone p ++ "<br/>"
    ++ nl ++ indent ++ address p ++ "<br/>"
    ++ nl ++ indent ++ linkedin p
    ++ nl ++ indent in
  nth_error (story cv_data) 1 = Some (Paragraph text ContactInfo)
  /\ texts_styled ContactInfo (story cv_data) = [text].
Proof.
  cbv zeta. rewrite story_closed_form. split; [reflexivity|].
  unfold preamble, epilogue.
  rewrite !texts_styled_app, texts_styled_experience, texts_styled_education
    by discriminate.
  destruct (certifications cv_data) as [|c cs]; [reflexivity|].
  unfold certification_blocks. cbn [texts_styled style_eqb app].
  rewrite texts_styled_normal_map by discriminate. reflexivity.
Qed.

(** The contact paragraph is not the four fields joined by vertical
    bars: it holds one bar, not three. *)
Lemma C8_counterexample :
  texts_styled ContactInfo (story (sample_cv []))
  <> [spec_contact_line (personal (sample_cv []))]
  /\ count_char "|" (contact_info (personal (sample_cv []))) = 1%nat
  /\ count_char "|" (spec_contact_line (personal (sample_cv []))) = 3%nat.
Proof. split; [discriminate | split; reflexivity]. Qed.

End StoryFacts.
(* ================================================================== *)
(** * The generators and the request handlers *)
(* ================================================================== *)

Module GeneratorFacts.

Import Datetime Effects CV Props RunFacts DatetimeFacts StringFacts.

Ltac run_step :=
  eapply returns_bind;
  [ first [ apply randint_returns; lia
          | apply choice_returns; discriminate
          | apply fake_returns
          | apply now_returns
          | apply round_uniform_returns
          | apply sample_returns; cbn; lia ]
  | intros ? ? ?; cbv beta in * ].

(** The education text with and without a GPA. *)
Lemma edu_text_cases (edu : Education) :
  gpa_in_bounds edu ->
  (forall g, gpa edu = Some g ->
             edu_text edu = edu_base edu ++ " (GPA: " ++ Py.repr_hundredths g ++ ")")
  /\ (gpa edu = None -> edu_text edu = edu_base edu).
Proof.
  unfold gpa_in_bounds, edu_text, edu_base. intros Hb. split.
  - intros g Hg. rewrite Hg in *. cbn [Py.truthy_opt_float Py.str_opt_float].
    destruct (Z.eqb_spec g 0); [lia|]. cbn [negb].
    now rewrite !append_assoc.
  - intros Hg. now rewrite Hg.
Qed.

Section Runs.

Variable E : Env.
Variable build : list Flowable -> string.

Lemma generate_personal_info_returns (w : world) :
  returns (generate_personal_info E) w
    (fun p _ => name p = faker E Name (faked w)).
Proof. eexists _, _. split; reflexivity. Qed.

Lemma generate_education_returns (w : world) :
  returns (generate_education E) w
    (fun edus _ => 1 <= Z.of_nat (List.length edus) <= 3 /\ Forall gpa_in_bounds edus).
Proof.
  unfold generate_education. run_step.
  eapply returns_mono.
  - apply (mapM_returns _ (fun _ edu => gpa_in_bounds edu)).
    intros i _ w1. do 4 run_step.
    match goal with b : bool |- _ => destruct b end.
    + eapply (returns_bind _ _ _ (fun o _ => gpa_in_bounds (mkEducation "" "" "" o))).
      * run_step. now apply returns_ret.
      * intros o w2 Ho. now apply returns_ret.
    + eapply (returns_bind _ _ _ (fun o _ => gpa_in_bounds (mkEducation "" "" "" o))).
      * now apply returns_ret.
      * intros o w2 Ho. now apply returns_ret.
  - cbv beta. intros edus _ Hall. split.
    + apply Forall2_length_Z in Hall. lia.
    + eapply Forall2_right, Hall.
Qed.

Lemma generate_skills_returns (w : world) :
  returns (generate_skills E) w
    (fun s _ => incl (technical s) technical_skills /\ incl (soft s) soft_skills).
Proof.
  unfold generate_skills. do 4 run_step. apply returns_ret. cbn. tauto.
Qed.

Lemma generate_certifications_returns (w : world) :
  returns (generate_certifications E) w
    (fun cs _ => Z.of_nat (List.length cs) <= 3 /\ incl cs certs).
Proof.
  unfold generate_certifications. run_step.
  eapply returns_mono; [apply sample_returns; cbn; lia|].
  cbv beta. intros cs _ (Hlen & Hincl). split; [lia | exact Hincl].
Qed.

Hypothesis Hclock : clock_ok E.

(** One round of the loop of [generate_work_experience]. *)
Lemma experience_round (current_date : datetime) (i : Z) (w : world) :
  2555 < toordinal current_date <= MAXORDINAL -> 0 <= i < 5 ->
  returns
    (r <- randint E 30 365 ;;
     end_date <- minus_days current_date (r * i) ;;
     r <- randint E 365 1095 ;;
     start_date <- minus_days end_date r ;;
     position <- choice E "" positions ;;
     company <- choice E "" companies ;;
     k <- randint E 2 4 ;;
     responsibilities <- mapM (fun _ => fake E Sentence) (range k) ;;
     ret (mkExperience position company
            (strftime_mY start_date)
            (if 0 <? i then strftime_mY end_date else "Present")
            responsibilities))
    w (fun e _ => entry_ok i e).
Proof.
  intros Hc Hi. run_step.
  eapply returns_bind; [apply minus_days_returns; nia|]. intros end_d w1 Hend.
  run_step.
  eapply returns_bind; [apply minus_days_returns; nia|]. intros start_d w2 Hstart.
  do 3 run_step.
  eapply returns_bind.
  { apply (mapM_returns _ (fun _ _ => True)). intros j _ w3.
    eapply returns_mono; [apply fake_returns | trivial]. }
  intros resp w3 _. apply returns_ret.
  assert (Rs : in_range start_d) by (unfold in_range; nia).
  assert (Re : in_range end_d) by (unfold in_range; nia).
  unfold entry_ok. cbn [start_date end_date]. split; [|split].
  - eexists. now apply parse_strftime_mY.
  - intros ->. reflexivity.
  - intros Hpos. destruct (Z.ltb_spec 0 i); [|lia]. split.
    + now apply strftime_mY_not_present.
    + unfold starts_before_end. cbn [start_date end_date].
      exists (month_index start_d), (month_index end_d).
      repeat split; try now apply parse_strftime_mY.
      apply month_index_mono. lia.
Qed.

Lemma generate_work_experience_rounds (w : world) :
  returns (generate_work_experience E) w
    (fun exps _ => exists n, 2 <= n <= 5 /\ Forall2 entry_ok (range n) exps).
Proof.
  unfold generate_work_experience. run_step. run_step.
  eapply returns_mono.
  - apply (mapM_returns _ entry_ok). intros i Hi w2.
    apply range_In in Hi. apply experience_round; [subst; apply Hclock | lia].
  - cbv beta. intros exps _ Hall. eauto.
Qed.

Lemma random_cv_data_returns (w : world) :
  returns (random_cv_data E) w
    (fun cv_data _ => name (personal cv_data) = faker E Name (faked w)).
Proof.
  unfold random_cv_data.
  eapply returns_bind; [apply generate_personal_info_returns|]. intros p w1 Hp.
  eapply returns_bind; [apply generate_work_experience_rounds|]. intros exps w2 _.
  eapply returns_bind; [apply generate_education_returns|]. intros edus w3 _.
  eapply returns_bind; [apply generate_skills_returns|]. intros sk w4 _.
  eapply returns_bind; [apply generate_certifications_returns|]. intros cs w5 _.
  apply returns_ret. exact Hp.
Qed.

(** A name written in round [i] can only recur in a round of index [i]. *)
Lemma batch_name_recurs (i : Z) (e : string * string)
      (xs : list Z) (es : list (string * string)) :
  batch_name_ok E i e -> 0 <= i < 20 ->
  Forall2 (batch_name_ok E) xs es -> Forall (fun i => 0 <= i < 20) xs ->
  In (fst e) (map fst es) -> In i xs.
Proof.
  intros (j & t & Hn) Hi H. induction H as [|i' e' xs es He' _ IH]; intros Hb Hin.
  - contradiction.
  - inversion Hb as [|? ? Hi' Hb']; subst.
    destruct Hin as [Heq | Hin]; [left | right; now apply IH].
    destruct He' as (j' & t' & Hn').
    rewrite Hn, Hn' in Heq. symmetry.
    now apply cv_filename_index_inj in Heq.
Qed.

(** Names written in rounds of different index differ. *)
Lemma batch_names_NoDup (xs : list Z) (es : list (string * string)) :
  Forall2 (batch_name_ok E) xs es -> NoDup xs -> Forall (fun i => 0 <= i < 20) xs ->
  NoDup (map fst es).
Proof.
  intros H. induction H as [|i e xs es He Hrest IH]; intros Hnd Hb; cbn.
  - constructor.
  - inversion Hnd as [|? ? Hnotin Hnd']; subst.
    inversion Hb as [|? ? Hi Hb']; subst.
    constructor; [|now apply IH].
    intros Hin. apply Hnotin. now apply (batch_name_recurs i e xs es).
Qed.

(** One round of the loop of [download_multiple_cvs_zip]. *)
Lemma zip_round (zip_file : ZipFile) (i : Z) (w : world) :
  returns
    (cv_data <- random_cv_data E ;;
     let pdf_buffer := create_pdf build cv_data in
     timestamp <- now E ;;
     let filename :=
       cv_filename (name (personal cv_data)) (strftime_stamp timestamp)
         (Some (i + 1)) in
     ret (writestr zip_file filename pdf_buffer))
    w (fun acc' _ => exists e, acc' = (zip_file ++ [e])%list /\ batch_name_ok E i e).
Proof.
  eapply returns_bind; [apply random_cv_data_returns|]. intros cv w1 Hname.
  cbv zeta. run_step. apply returns_ret.
  eexists. split; [reflexivity|]. unfold batch_name_ok. cbn [fst].
  subst. rewrite Hname. eauto.
Qed.

Lemma download_multiple_cvs_zip_returns (count : Z) (w : world) :
  count <= 20 ->
  returns (download_multiple_cvs_zip E build count) w
    (fun out _ => Forall2 (batch_name_ok E) (range count) (snd out)).
Proof.
  intros Hc. unfold download_multiple_cvs_zip.
  destruct (Z.ltb_spec 20 count); [lia|].
  eapply returns_bind.
  { apply (foldM_appends _ (batch_name_ok E)). intros acc i _ w1. apply zip_round. }
  intros zip_file w1 (es & -> & Hes). cbv beta.
  run_step. apply returns_ret. exact Hes.
Qed.

Lemma generate_multiple_cvs_returns (count : Z) (w : world) :
  count <= 20 ->
  returns (generate_multiple_cvs E count) w
    (fun out _ => List.length (fst out) = Z.to_nat count
                  /\ snd out = Z.of_nat (List.length (fst out))).
Proof.
  intros Hc. unfold generate_multiple_cvs.
  destruct (Z.ltb_spec 20 count); [lia|].
  eapply returns_bind.
  { apply (mapM_returns _ (fun _ _ => True)). intros i _ w1.
    eapply returns_mono; [apply random_cv_data_returns | trivial]. }
  intros cvs w1 Hall. apply returns_ret. cbn [fst snd].
  split; [|reflexivity]. now apply Forall2_length_Z in Hall.
Qed.

Lemma above_20_raises (count : Z) (w : world) :
  20 < count ->
  generate_multiple_cvs E count w
  = (Raise (HTTPException 400 "Maximum 10 CVs can be generated at once"), w)
  /\ download_multiple_cvs_zip E build count w
     = (Raise (HTTPException 400 "Maximum 20 CVs can be generated at once"), w).
Proof.
  intros Hc. unfold generate_multiple_cvs, download_multiple_cvs_zip.
  destruct (Z.ltb_spec 20 count); [|lia]. split; reflexivity.
Qed.

(** ** C6 *)

(** C6 (as amended).  With the clock in range, [generate_work_experience]
    returns between two and five entries; the first entry, and no other,
    has the end date [Present]; and every entry whose end date is not
    [Present] has a start date that is not after its end date.  (The
    entries after the first need not be in most-recent-first order.) *)
Theorem C6_experience_dates (w : world) :
  returns (generate_work_experience E) w
    (fun exps _ =>
       2 <= Z.of_nat (List.length exps) <= 5
       /\ exists first rest,
           exps = first :: rest
           /\ end_date first = "Present"
           /\ (exists s, parse_mY (start_date first) = Some s)
           /\ Forall (fun e => end_date e <> "Present" /\ starts_before_end e) rest).
Proof.
  eapply returns_mono; [apply generate_work_experience_rounds|].
  cbv beta. intros exps _ (n & Hn & Hall). split.
  - apply Forall2_length_Z in Hall. lia.
  - destruct (range_cons n ltac:(lia)) as (is_ & Hr & Hpos).
    rewrite Hr in Hall. inversion Hall as [|? first ? rest Hfirst Hrest]; subst.
    exists first, rest. destruct Hfirst as (Hs & Hp & _).
    repeat split; auto.
    eapply Forall2_entries; [exact Hrest | exact Hpos |].
    cbv beta. intros i e Hi (_ & _ & He). apply He. lia.
Qed.

(** ** C2 *)

(** C2.  With the clock in range and a count N from 1 to 20, the archive
    that [download_multiple_cvs_zip] returns has exactly N members; their
    names are pairwise distinct; and the k-th name, in the order of
    insertion, is CV_, the sanitized form of a Faker name, the stamp of a
    clock reading and the index k written with three digits, from 001
    on, followed by .pdf.  Nothing is assumed of the names or of the
    clock readings: they may all be equal. *)
Theorem C2_batch_file_names (count : Z) (w : world) :
  1 <= count <= 20 ->
  returns (download_multiple_cvs_zip E build count) w
    (fun out _ =>
       let names := map fst (snd out) in
       List.length names = Z.to_nat count
       /\ NoDup names
       /\ forall k, (k < Z.to_nat count)%nat ->
            exists j t,
              nth_error names k
              = Some ("CV_" ++ sanitize (faker E Name j) ++ "_"
                      ++ strftime_stamp (clock E t) ++ "_"
                      ++ three_digits (Z.of_nat k + 1) ++ ".pdf")).
Proof.
  intros Hc. eapply returns_mono; [apply download_multiple_cvs_zip_returns; lia|].
  cbv beta zeta. intros [zip_filename zip_file] _ Hall. cbn [snd] in *.
  split; [|split].
  - rewrite length_map. now apply Forall2_length_Z in Hall.
  - apply (batch_names_NoDup _ _ Hall (range_NoDup count)).
    apply Forall_forall. intros i Hi. apply range_In in Hi. lia.
  - intros k Hk.
    destruct (Forall2_nth _ _ _ k _ Hall (range_nth count k Hk))
      as (e & He & j & t & Hn).
    exists j, t.
    rewrite nth_error_map, He. cbn [option_map]. f_equal.
    rewrite Hn. unfold cv_filename.
    rewrite format_index by lia. reflexivity.
Qed.

(** ** C3 *)

(** C3.  A count above 20 makes both batch handlers raise the
    bad-request exception at once: the world is as before (nothing was
    drawn, no Faker call made, the clock not read) and no value is
    returned.  The message of [generate_multiple_cvs] speaks of 10, yet
    the bound is 20 in both: with the clock in range, no count up to 20
    is rejected. *)
Theorem C3_reject_above_20 :
  (forall count w,
      20 < count ->
      generate_multiple_cvs E count w
      = (Raise (HTTPException 400 "Maximum 10 CVs can be generated at once"), w)
      /\ download_multiple_cvs_zip E build count w
         = (Raise (HTTPException 400 "Maximum 20 CVs can be generated at once"), w))
  /\ (forall count w,
        count <= 20 ->
        ~ rejected (generate_multiple_cvs E count w)
        /\ ~ rejected (download_multiple_cvs_zip E build count w)).
Proof.
  split; [exact above_20_raises|].
  intros count w Hc. split; eapply returns_not_rejected.
  - now apply generate_multiple_cvs_returns.
  - now apply download_multiple_cvs_zip_returns.
Qed.

(** ** C10 *)

(** C10.  A count of zero or less is not rejected:
    [generate_multiple_cvs] returns the empty list and the count 0 and
    leaves the world as it was; [download_multiple_cvs_zip] returns an
    archive without members, having read the clock once for the name of
    the archive.  With the clock in range, either handler rejects a
    request exactly when the count exceeds 20. *)
Theorem C10_nonpositive_counts :
  (forall count w, count <= 0 ->
     generate_multiple_cvs E count w = (Ok ([], 0), w)
     /\ download_multiple_cvs_zip E build count w
        = (Ok ("CVs_Batch_" ++ strftime_stamp (clock E (ticks w)) ++ "_"
                ++ Py.str_int count ++ "_files.zip", []),
           mkWorld (drawn w) (faked w) (S (ticks w))))
  /\ (forall count w, rejected (generate_multiple_cvs E count w) <-> 20 < count)
  /\ (forall count w,
        rejected (download_multiple_cvs_zip E build count w) <-> 20 < count).
Proof.
  split; [|split].
  - intros count w Hc. unfold generate_multiple_cvs, download_multiple_cvs_zip.
    destruct (Z.ltb_spec 20 count); [lia|].
    rewrite (range_nonpositive count Hc). split; reflexivity.
  - intros count w. split.
    + intros Hr. destruct (Z_lt_le_dec 20 count) as [|Hle]; [assumption|].
      exfalso. revert Hr. eapply returns_not_rejected.
      now apply generate_multiple_cvs_returns.
    + intros Hc. destruct (above_20_raises count w Hc) as (-> & _).
      eexists. reflexivity.
  - intros count w. split.
    + intros Hr. destruct (Z_lt_le_dec 20 count) as [|Hle]; [assumption|].
      exfalso. revert Hr. eapply returns_not_rejected.
      now apply download_multiple_cvs_zip_returns.
    + intros Hc. destruct (above_20_raises count w Hc) as (_ & ->).
      eexists. reflexivity.
Qed.

(** ** C4 *)

(** C4.  For an education entry whose GPA, when present, is between 3.0
    and 4.0, the composed text ends in a parenthetical GPA exactly when
    the GPA is present: present, the text is the base text followed by
    the GPA in parentheses; absent, it is the base text alone.  The text
    is the paragraph of the entry in the story, and every entry that
    [generate_education] returns has its GPA within these bounds. *)
Theorem C4_gpa_parenthetical :
  (forall edu,
      gpa_in_bounds edu ->
      (has_gpa_parenthetical edu <-> gpa edu <> None)
      /\ (forall g, gpa edu = Some g ->
                    edu_text edu
                    = edu_base edu ++ " (GPA: " ++ Py.repr_hundredths g ++ ")")
      /\ (gpa edu = None -> edu_text edu = edu_base edu))
  /\ (forall cv_data edu,
        In edu (education cv_data) ->
        In (Paragraph (edu_text edu) Normal) (story cv_data))
  /\ (forall w,
        returns (generate_education E) w (fun edus _ => Forall gpa_in_bounds edus)).
Proof.
  split; [|split].
  - intros edu Hb. destruct (edu_text_cases edu Hb) as (Hsome & Hnone).
    split; [|split; assumption]. unfold has_gpa_parenthetical. split.
    + intros (g & Hg) Habsent. rewrite (Hnone Habsent) in Hg.
      revert Hg. apply append_nonempty_neq. discriminate.
    + intros Hpresent. destruct (gpa edu) as [g|] eqn:Hg; [|congruence].
      exists (Py.repr_hundredths g). now apply Hsome.
  - intros cv_data edu Hin. rewrite StoryFacts.story_closed_form.
    apply in_or_app; right. apply in_or_app; right. unfold epilogue.
    apply in_or_app; right. apply in_or_app; left.
    apply in_flat_map. exists edu. split; [exact Hin | now left].
  - intros w. eapply returns_mono; [apply generate_education_returns|].
    cbv beta. tauto.
Qed.

(** A GPA of 0.0, which the generator never produces, counts as false in
    the test of [create_pdf] and is left out of the text. *)
Remark zero_gpa_is_left_out (d i y : string) :
  edu_text (mkEducation d i y (Some 0)) = edu_base (mkEducation d i y (Some 0)).
Proof. reflexivity. Qed.

(** ** C9 *)

(** C9 (as amended).  A file name is CV_, the sanitized name, an
    underscore, the time stamp, for a batch an underscore and the index
    in at least three digits, and .pdf.  Sanitizing removes every comma
    and turns every space into an underscore, and keeps every other
    character, so the result has neither spaces nor commas.  With the
    clock in range, the single download is named in this way after the
    generated name and a reading of the clock. *)
Theorem C9_file_names :
  (forall name,
      list_ascii_of_string (sanitize name)
      = sanitized_chars (list_ascii_of_string name))
  /\ (forall name c,
        In c (list_ascii_of_string (sanitize name)) -> c <> " "%char /\ c <> ","%char)
  /\ (forall name timestamp,
        cv_filename name timestamp None
        = "CV_" ++ sanitize name ++ "_" ++ timestamp ++ ".pdf")
  /\ (forall name timestamp i,
        cv_filename name timestamp (Some i)
        = "CV_" ++ sanitize name ++ "_" ++ timestamp ++ "_" ++ Py.format_0d 3 i ++ ".pdf")
  /\ (forall w,
        returns (download_single_cv_pdf E build) w
          (fun out _ =>
             exists t,
               fst out = "CV_" ++ sanitize (faker E Name (faked w)) ++ "_"
                         ++ strftime_stamp (clock E t) ++ ".pdf")).
Proof.
  split; [|split; [|split; [|split]]].
  - apply sanitize_chars.
  - apply sanitize_no_space_no_comma.
  - reflexivity.
  - reflexivity.
  - intros w. unfold download_single_cv_pdf.
    eapply returns_bind; [apply random_cv_data_returns|]. intros cv w1 Hname.
    cbv zeta. run_step. apply returns_ret. cbn [fst].
    subst. rewrite Hname. eexists. reflexivity.
Qed.

End Runs.

(** ** Concrete runs *)

Lemma sample_clock_ok (draws : list nat) : clock_ok (sample_env draws sample_time).
Proof. intros t. cbn. unfold MAXORDINAL. lia. Defined.

Lemma C2_witness :
  1 <= 3 <= 20
  /\ returns (download_multiple_cvs_zip (sample_env [] sample_time) sample_build 3) fresh
       (fun out _ =>
          let names := map fst (snd out) in
          List.length names = Z.to_nat 3
          /\ NoDup names
          /\ forall k, (k < Z.to_nat 3)%nat ->
               exists j t,
                 nth_error names k
                 = Some ("CV_" ++ sanitize (faker (sample_env [] sample_time) Name j) ++ "_"
                         ++ strftime_stamp (clock (sample_env [] sample_time) t) ++ "_"
                         ++ three_digits (Z.of_nat k + 1) ++ ".pdf")).
Proof.
  assert (H : 1 <= 3 <= 20) by lia.
  split; [exact H|].
  exact (C2_batch_file_names (sample_env [] sample_time) sample_build
           (sample_clock_ok []) 3 fresh H).
Defined.

(** Three records with the same name, stamped within the same second. *)
Example same_name_same_second :
  exists zip_filename w',
    download_multiple_cvs_zip (sample_env [] sample_time) sample_build 3 fresh
    = (Ok (zip_filename,
           [ ("CV_Ann_Lee_20240615_130509_001.pdf", "%PDF-1.4");
             ("CV_Ann_Lee_20240615_130509_002.pdf", "%PDF-1.4");
             ("CV_Ann_Lee_20240615_130509_003.pdf", "%PDF-1.4") ]), w').
Proof. eexists _, _. vm_compute. reflexivity. Qed.

Lemma C3_witness :
  20 < 21
  /\ generate_multiple_cvs (sample_env [] sample_time) 21 fresh
     = (Raise (HTTPException 400 "Maximum 10 CVs can be generated at once"), fresh)
  /\ download_multiple_cvs_zip (sample_env [] sample_time) sample_build 21 fresh
     = (Raise (HTTPException 400 "Maximum 20 CVs can be generated at once"), fresh).
Proof.
  assert (H : 20 < 21) by lia.
  split; [exact H|].
  exact (proj1 (C3_reject_above_20 (sample_env [] sample_time) sample_build
                  (sample_clock_ok [])) 21 fresh H).
Defined.

Lemma C4_witness :
  gpa_in_bounds (mkEducation "Bachelor of Engineering" "City College" "2017" (Some 357))
  /\ edu_text (mkEducation "Bachelor of Engineering" "City College" "2017" (Some 357))
     = "<b>Bachelor of Engineering</b><br/>City College, 2017 (GPA: 3.57)".
Proof.
  assert (H : gpa_in_bounds
                (mkEducation "Bachelor of Engineering" "City College" "2017" (Some 357)))
    by (unfold gpa_in_bounds; cbn; lia).
  split; [exact H|].
  exact (proj1 (proj2 (proj1 (C4_gpa_parenthetical (sample_env [] sample_time)) _ H))
           357 eq_refl).
Defined.

Lemma C6_witness :
  clock_ok (sample_env [] sample_time)
  /\ returns (generate_work_experience (sample_env [] sample_time)) fresh
       (fun exps _ =>
          2 <= Z.of_nat (List.length exps) <= 5
          /\ exists first rest,
              exps = first :: rest
              /\ end_date first = "Present"
              /\ (exists s, parse_mY (start_date first) = Some s)
              /\ Forall (fun e => end_date e <> "Present" /\ starts_before_end e) rest).
Proof.
  split; [exact (sample_clock_ok [])|].
  exact (C6_experience_dates (sample_env [] sample_time) (sample_clock_ok []) fresh).
Defined.

(** With the draws [unordered_draws] the generator returns three entries
    of which the third ended in 04/2024 and started in 04/2023, after the
    second, which ended in 06/2023 and started in 06/2022: the list is
    most recent first neither by end date nor by start date. *)
Lemma C6_counterexample :
  clock_ok (sample_env unordered_draws sample_time)
  /\ exists exps w',
      generate_work_experience (sample_env unordered_draws sample_time) fresh
      = (Ok exps, w')
      /\ map end_date exps = ["Present"; "06/2023"; "04/2024"]
      /\ map start_date exps = ["06/2023"; "06/2022"; "04/2023"]
      /\ most_recent_first end_date exps = false
      /\ most_recent_first start_date exps = false.
Proof.
  split; [exact (sample_clock_ok unordered_draws)|].
  eexists _, _. split; [vm_compute; reflexivity|].
  repeat split; reflexivity.
Qed.

Lemma C9_witness :
  In "_"%char (list_ascii_of_string (sanitize "Lee, Ann"))
  /\ "_"%char <> " "%char /\ "_"%char <> ","%char.
Proof.
  assert (H : In "_"%char (list_ascii_of_string (sanitize "Lee, Ann")))
    by (cbn; tauto).
  split; [exact H|].
  exact (proj1 (proj2 (C9_file_names (sample_env [] sample_time) sample_build
                         (sample_clock_ok []))) "Lee, Ann" "_"%char H).
Defined.

(** A name with a slash keeps it, and the file name is then not safe; a
    name with a tab keeps the tab. *)
Lemma C9_counterexample :
  filesystem_safe (cv_filename "Ann/Lee" "20240615_130509" None) = false
  /\ cv_filename "Ann/Lee" "20240615_130509" None = "CV_Ann/Lee_20240615_130509.pdf"
  /\ has_whitespace (sanitize (String "A" (String "009" "B"))) = true.
Proof. repeat split; reflexivity. Qed.

Lemma C10_witness :
  -2 <= 0
  /\ generate_multiple_cvs (sample_env [] sample_time) (-2) fresh = (Ok ([], 0), fresh)
  /\ download_multiple_cvs_zip (sample_env [] sample_time) sample_build (-2) fresh
     = (Ok ("CVs_Batch_" ++ strftime_stamp (clock (sample_env [] sample_time) (ticks fresh))
             ++ "_" ++ Py.str_int (-2) ++ "_files.zip", []),
        mkWorld (drawn fresh) (faked fresh) (S (ticks fresh))).
Proof.
  assert (H : -2 <= 0) by lia.
  split; [exact H|].
  exact (proj1 (C10_nonpositive_counts (sample_env [] sample_time) sample_build
                  (sample_clock_ok [])) (-2) fresh H).
Defined.

End GeneratorFacts.
(* ================================================================== *)
(** * Further properties of the generators and the handlers *)
(* ================================================================== *)

Module MoreFacts.

Import Datetime Effects CV Props MoreProps RunFacts DatetimeFacts StringFacts
  GeneratorFacts.

(** ** The calendar: months apart *)

Lemma days_in_month_le_31 (y m : Z) : 1 <= m <= 12 -> days_in_month y m <= 31.
Proof.
  intros Hm. unfold days_in_month.
  assert (Hc : m = 1 \/ m = 2 \/ m = 3 \/ m = 4 \/ m = 5 \/ m = 6 \/ m = 7
               \/ m = 8 \/ m = 9 \/ m = 10 \/ m = 11 \/ m = 12) by lia.
  destruct (is_leap y);
    repeat (destruct Hc as [-> | Hc]); try subst m; calendar_calc; lia.
Qed.

(** Dates more than 30 days apart fall in different months. *)
Lemma month_index_lt (a b : datetime) :
  toordinal a + 31 <= toordinal b -> month_index a < month_index b.
Proof.
  intros Hle.
  pose proof (month_index_mono a b ltac:(lia)) as Hmono.
  destruct (Z.eq_dec (month_index a) (month_index b)) as [Heq|]; [exfalso|lia].
  unfold month_index, Datetime.year, month in Heq.
  pose proof (ord2ymd_spec (toordinal a)) as Ha.
  pose proof (ord2ymd_spec (toordinal b)) as Hb.
  destruct (ord2ymd (toordinal a)) as [[ya ma] da].
  destruct (ord2ymd (toordinal b)) as [[yb mb] db].
  cbn [fst snd] in Heq.
  destruct Ha as (Hma & Hda & Ea), Hb as (Hmb & Hdb & Eb).
  assert (ya = yb /\ ma = mb) as (-> & ->) by lia.
  pose proof (days_in_month_le_31 yb mb Hmb).
  unfold ymd2ord in Ea, Eb. lia.
Qed.

(** ** [random.sample] draws without repetition *)

Lemma remove_nth_In {A : Type} (d : A) (j : nat) (xs : list A) :
  NoDup xs -> (j < List.length xs)%nat -> ~ In (nth j xs d) (remove_nth j xs).
Proof.
  intros Hnd. revert j. induction Hnd as [|x xs Hx Hnd IH]; intros j Hj.
  - inversion Hj.
  - destruct j as [|j]; cbn [nth remove_nth]; [exact Hx|].
    cbn in Hj. intros [Heq | Hin].
    + apply Hx. rewrite Heq. apply nth_In. lia.
    + apply (IH j); [lia | exact Hin].
Qed.

Lemma remove_nth_NoDup {A : Type} (j : nat) (xs : list A) :
  NoDup xs -> NoDup (remove_nth j xs).
Proof.
  intros Hnd. revert j. induction Hnd as [|x xs Hx Hnd IH]; intros j.
  - destruct j; constructor.
  - destruct j as [|j]; cbn [remove_nth]; [exact Hnd|].
    constructor; [|apply IH].
    intros Hin. apply Hx. now apply (remove_nth_incl j).
Qed.

Lemma sample_loop_NoDup {A : Type} (E : Env) (d : A) (k : nat) (pool : list A) (w : world) :
  NoDup pool -> (k <= List.length pool)%nat ->
  returns (sample_loop E d k pool) w
    (fun out _ => List.length out = k /\ incl out pool /\ NoDup out).
Proof.
  revert pool w; induction k as [|k IH]; intros pool w Hnd Hk; cbn [sample_loop].
  - apply returns_ret. repeat split; [intros x [] | constructor].
  - eapply returns_bind; [apply draw_returns|].
    intros n w' _.
    assert (Hj : (n mod List.length pool < List.length pool)%nat)
      by (apply Nat.mod_upper_bound; lia).
    eapply returns_bind.
    + apply IH; [now apply remove_nth_NoDup|].
      rewrite remove_nth_length by exact Hj. lia.
    + intros out w'' (Hlen & Hincl & Hout). apply returns_ret. repeat split.
      * cbn. now rewrite Hlen.
      * intros x [<-|Hx]; [now apply nth_In|].
        now apply (remove_nth_incl (n mod List.length pool)), Hincl.
      * constructor; [|exact Hout].
        intros Hin. apply (remove_nth_In d _ pool Hnd Hj). now apply Hincl.
Qed.

Lemma sample_NoDup {A : Type} (E : Env) (d : A) (population : list A) (k : Z) (w : world) :
  NoDup population -> 0 <= k <= Z.of_nat (List.length population) ->
  returns (sample E d population k) w
    (fun out _ => Z.of_nat (List.length out) = k /\ incl out population /\ NoDup out).
Proof.
  intros Hnd Hk. unfold sample.
  destruct (Z.ltb_spec k 0); [lia|].
  destruct (Z.ltb_spec (Z.of_nat (List.length population)) k); [lia|].
  cbn [orb]. eapply returns_mono; [apply sample_loop_NoDup; [exact Hnd | lia]|].
  intros out _ (Hlen & Hincl & Hout). repeat split; [lia | exact Hincl | exact Hout].
Qed.

Lemma nodupb_NoDup (xs : list string) : nodupb xs = true -> NoDup xs.
Proof.
  induction xs as [|x xs IH]; cbn [nodupb]; intros H; constructor.
  - apply andb_true_iff in H. destruct H as (H & _).
    unfold not_in in H. apply negb_true_iff in H.
    intros Hin. apply not_true_iff_false in H. apply H.
    apply existsb_exists. exists x. split; [exact Hin | apply String.eqb_refl].
  - apply IH. now apply andb_true_iff in H.
Qed.

Lemma not_in_spec (xs : list string) (x : string) : not_in xs x = true -> ~ In x xs.
Proof.
  unfold not_in. intros H Hin. apply negb_true_iff, not_true_iff_false in H.
  apply H, existsb_exists. exists x. split; [exact Hin | apply String.eqb_refl].
Qed.

Lemma vocabularies_NoDup :
  NoDup technical_skills /\ NoDup soft_skills /\ NoDup certs.
Proof. repeat split; apply nodupb_NoDup; vm_compute; reflexivity. Qed.

Lemma skills_disjoint (x : string) : In x technical_skills -> ~ In x soft_skills.
Proof.
  intros Hin. apply not_in_spec. revert x Hin. apply forallb_forall.
  vm_compute. reflexivity.
Qed.

Lemma year_table : forallb year_reads_back (map (Z.add 2010) (range 14)) = true.
Proof. vm_compute. reflexivity. Qed.

Lemma graduation_year_text (y : Z) :
  2010 <= y <= 2023 ->
  parse_number (Py.str_int y) = Some y /\ String.length (Py.str_int y) = 4%nat.
Proof.
  intros Hy. pose proof year_table as T. rewrite forallb_forall in T.
  specialize (T y). unfold year_reads_back in T.
  assert (Hin : In y (map (Z.add 2010) (range 14))).
  { apply in_map_iff. exists (y - 2010). split; [lia | apply range_In; lia]. }
  specialize (T Hin). destruct (parse_number _) as [v|]; [|discriminate].
  apply andb_true_iff in T. destruct T as (T1 & T2).
  apply Z.eqb_eq in T1. apply Nat.eqb_eq in T2. now subst.
Qed.

(** ** Plain texts: no space, no comma *)

Lemma plain_append (a b : string) : plain (a ++ b) = plain a && plain b.
Proof. unfold plain. now rewrite chars_append, forallb_app. Qed.

Lemma plain_uint (u : Decimal.uint) : plain (NilEmpty.string_of_uint u) = true.
Proof. induction u; cbn; auto. Qed.

Lemma plain_str_int (z : Z) : plain (Py.str_int z) = true.
Proof.
  unfold Py.str_int. destruct (Z.to_int z) as [u|u]; cbn [NilEmpty.string_of_int].
  - apply plain_uint.
  - change (String "-" (NilEmpty.string_of_uint u))
      with ("-" ++ NilEmpty.string_of_uint u).
    rewrite plain_append, plain_uint. reflexivity.
Qed.

Lemma plain_zfill (width : nat) (s : string) : plain s = true -> plain (Py.zfill width s) = true.
Proof.
  intros Hs. unfold Py.zfill. rewrite plain_append, Hs, andb_true_r.
  induction (width - String.length s)%nat as [|k IH]; [reflexivity | exact IH].
Qed.

Lemma plain_format_0d (width : nat) (z : Z) : plain (Py.format_0d width z) = true.
Proof.
  unfold Py.format_0d. destruct (z <? 0).
  - rewrite plain_append. apply plain_zfill, plain_str_int.
  - apply plain_zfill, plain_str_int.
Qed.

Lemma plain_stamp (d : datetime) : plain (strftime_stamp d) = true.
Proof.
  unfold strftime_stamp. rewrite !plain_append, !plain_format_0d. reflexivity.
Qed.

Lemma plain_sanitize (name : string) : plain (sanitize name) = true.
Proof.
  unfold plain. apply forallb_forall. intros c Hc.
  destruct (sanitize_no_space_no_comma name c Hc) as (Hs & Hk).
  unfold plain_char. apply andb_true_iff. split; apply negb_true_iff, Ascii.eqb_neq; assumption.
Qed.

Lemma plain_cv_filename (name : string) (d : datetime) (index : option Z) :
  plain (cv_filename name (strftime_stamp d) index) = true.
Proof.
  unfold cv_filename. destruct index as [i|];
    rewrite !plain_append, ?plain_format_0d, plain_sanitize, plain_stamp; reflexivity.
Qed.

(** ** [sanitize] once more *)

Lemma sanitized_chars_plain (cs : list ascii) :
  forallb plain_char cs = true -> sanitized_chars cs = cs.
Proof.
  unfold sanitized_chars. induction cs as [|c cs IH]; [reflexivity|].
  cbn [forallb]. intros H. apply andb_true_iff in H. destruct H as (Hc & Hcs).
  unfold plain_char in Hc. apply andb_true_iff in Hc. destruct Hc as (Hs & Hk).
  cbn [filter]. rewrite Hk. cbn [map]. apply negb_true_iff in Hs. rewrite Hs.
  now rewrite IH.
Qed.

Lemma chars_inj (a b : string) :
  list_ascii_of_string a = list_ascii_of_string b -> a = b.
Proof.
  intros H. rewrite <- (string_of_list_ascii_of_string a),
    <- (string_of_list_ascii_of_string b). now rewrite H.
Qed.

Lemma length_chars (s : string) :
  List.length (list_ascii_of_string s) = String.length s.
Proof. induction s as [|c s IH]; cbn; [reflexivity | now rewrite IH]. Qed.

Lemma count_char_chars (c : ascii) (s : string) :
  (List.length (filter (fun x => negb (Ascii.eqb x c)) (list_ascii_of_string s))
   + count_char c s = String.length s)%nat.
Proof.
  induction s as [|x s IH]; cbn [list_ascii_of_string filter count_char String.length];
    [reflexivity|].
  destruct (Ascii.eqb x c); cbn [negb List.length]; lia.
Qed.

(** ** The size of a story *)

Lemma list_sum_bounds {A : Type} (f : A -> nat) (lo hi : nat) (xs : list A) :
  Forall (fun x => (lo <= f x <= hi)%nat) xs ->
  (lo * List.length xs <= list_sum (map f xs) <= hi * List.length xs)%nat.
Proof.
  induction 1 as [|x xs Hx _ IH]; unfold list_sum in *;
    cbn [map fold_right List.length]; cbv beta in *; nia.
Qed.

Lemma story_length (cv_data : CVData) :
  List.length (story cv_data) = story_size cv_data.
Proof.
  rewrite StoryFacts.story_closed_form. unfold story_size, preamble, epilogue.
  rewrite !length_app, !length_flat_map. cbn [List.length].
  replace (list_sum (map (fun x => List.length (experience_blocks x)) (experience cv_data)))
    with (list_sum (map (fun e => (2 + List.length (responsibilities e))%nat)
                        (experience cv_data))).
  2:{ f_equal. apply map_ext. intros e. unfold experience_blocks.
      cbn [List.length]. rewrite length_app, length_map. cbn. lia. }
  replace (list_sum (map (fun x => List.length (education_blocks x)) (education cv_data)))
    with (2 * List.length (education cv_data))%nat.
  2:{ induction (education cv_data) as [|e es IH]; unfold list_sum in *;
      cbn [map fold_right List.length education_blocks] in *; lia. }
  destruct (certifications cv_data) as [|c cs]; cbn [certification_blocks List.length].
  - lia.
  - rewrite length_map. cbn [List.length]. lia.
Qed.

Lemma generated_story_size (cv_data : CVData) :
  generated cv_data -> (21 <= story_size cv_data <= 51)%nat.
Proof.
  intros (Hne & Hexp & Hnd & _ & _ & _ & (Hnc & _ & _)). unfold story_size.
  assert (Hsum : (4 * List.length (experience cv_data)
                  <= list_sum (map (fun e => (2 + List.length (responsibilities e))%nat)
                                   (experience cv_data))
                  <= 6 * List.length (experience cv_data))%nat).
  { apply list_sum_bounds. eapply Forall_impl, Hexp.
    intros e (_ & _ & Hr). lia. }
  destruct (certifications cv_data) as [|c cs]; cbn [List.length] in *; lia.
Qed.

(** ** Runs step by step *)




(** ** Readings of the clock *)

Lemma reads_ret {A : Type} (a : A) : reads_clock (ret a) 0.
Proof. intros w a' w' H. injection H as _ <-. lia. Qed.

Lemma reads_raise {A : Type} (e : exn) (n : nat) : reads_clock (@raise A e) n.
Proof. intros w a w' H. discriminate H. Qed.

Lemma reads_bind {A B : Type} (m : M A) (k : A -> M B) (n1 n2 n : nat) :
  reads_clock m n1 -> (forall a, reads_clock (k a) n2) -> n = (n1 + n2)%nat ->
  reads_clock (bind m k) n.
Proof.
  intros Hm Hk -> w b w'' H. unfold bind in H.
  destruct (m w) as [[a|e] w'] eqn:Em; [|discriminate].
  rewrite (Hk a w' b w'' H), (Hm w a w' Em). lia.
Qed.

Lemma reads_mapM {I A : Type} (body : I -> M A) (xs : list I) :
  (forall i, reads_clock (body i) 0) -> reads_clock (mapM body xs) 0.
Proof.
  intros Hb. induction xs as [|i xs IH]; cbn [mapM]; [apply reads_ret|].
  eapply reads_bind; [apply Hb | | reflexivity]. intros a.
  eapply reads_bind; [apply IH | | reflexivity]. intros out. apply reads_ret.
Qed.

Lemma reads_foldM {T I : Type} (body : T -> I -> M T) (c : nat) (xs : list I) (acc : T) :
  (forall acc i, reads_clock (body acc i) c) ->
  reads_clock (foldM body xs acc) (c * List.length xs).
Proof.
  intros Hb. revert acc. induction xs as [|i xs IH]; intros acc; cbn [foldM].
  - replace (c * List.length (@nil I))%nat with 0%nat by (cbn; lia). apply reads_ret.
  - eapply reads_bind; [apply Hb | intros a; apply IH | cbn [List.length]; lia].
Qed.

(** A run that returns, with the count of its readings of the clock. *)
Lemma returns_reads {A : Type} (m : M A) (n : nat) (w : world) (P : A -> world -> Prop) :
  returns m w P -> reads_clock m n ->
  returns m w (fun a w' => P a w' /\ ticks w' = (ticks w + n)%nat).
Proof.
  intros (a & w' & Hm & Hp) Hr. exists a, w'. repeat split; eauto.
Qed.

Lemma reads_mapM_each {I A : Type} (body : I -> M A) (c : nat) (xs : list I) :
  (forall i, reads_clock (body i) c) ->
  reads_clock (mapM body xs) (c * List.length xs).
Proof.
  intros Hb. induction xs as [|i xs IH]; cbn [mapM].
  - replace (c * List.length (@nil I))%nat with 0%nat by (cbn; lia). apply reads_ret.
  - eapply (reads_bind _ _ c (c * List.length xs)); [apply Hb | | cbn [List.length]; lia].
    intros a.
    eapply (reads_bind _ _ (c * List.length xs) 0); [apply IH | | lia].
    intros out. apply reads_ret.
Qed.

(** A loop that appends one element and reads the clock [c] times per
    round. *)
Lemma foldM_members {I A : Type} (body : list A -> I -> M (list A)) (c : nat)
      (Q : nat -> I -> A -> Prop) (xs : list I) :
  (forall acc i w,
      returns (body acc i) w
        (fun acc' w' => ticks w' = (ticks w + c)%nat
                        /\ exists e, acc' = (acc ++ [e])%list /\ Q (ticks w) i e)) ->
  forall acc w,
    returns (foldM body xs acc) w
      (fun out w' =>
         ticks w' = (ticks w + c * List.length xs)%nat
         /\ exists es,
             out = (acc ++ es)%list
             /\ List.length es = List.length xs
             /\ forall k i, nth_error xs k = Some i ->
                  exists e, nth_error es k = Some e /\ Q (ticks w + c * k)%nat i e).
Proof.
  intros Hbody. induction xs as [|i xs IH]; intros acc w; cbn [foldM].
  - apply returns_ret. split; [cbn; lia|]. exists []. rewrite app_nil_r.
    repeat split. intros [|k] j Hk; discriminate Hk.
  - eapply returns_bind; [apply Hbody|].
    intros acc' w1 (Ht & e & -> & He).
    eapply returns_mono; [apply IH|].
    cbv beta. intros out w2 (Ht2 & es & -> & Hlen & Hall). split.
    + cbn [List.length]. lia.
    + exists (e :: es). rewrite <- app_assoc. repeat split.
      * cbn. now rewrite Hlen.
      * intros [|k] j Hk; cbn [nth_error] in *.
        -- injection Hk as <-. exists e. split; [reflexivity|].
           now replace (ticks w + c * 0)%nat with (ticks w) by lia.
        -- destruct (Hall k j Hk) as (e' & He' & Hq). exists e'. split; [exact He'|].
           now replace (ticks w + c * S k)%nat with (ticks w1 + c * k)%nat by lia.
Qed.

Section Clock.

Variable E : Env.

Lemma reads_draw : reads_clock (draw E) 0.
Proof. intros w a w' H. injection H as _ <-. cbn. lia. Qed.

Lemma reads_fake (k : fake_kind) : reads_clock (fake E k) 0.
Proof. intros w a w' H. injection H as _ <-. cbn. lia. Qed.

Lemma reads_now : reads_clock (now E) 1.
Proof. intros w a w' H. injection H as _ <-. cbn. lia. Qed.

Lemma reads_randint (a b : Z) : reads_clock (randint E a b) 0.
Proof.
  eapply reads_bind; [apply reads_draw | intros; apply reads_ret | reflexivity].
Qed.

Lemma reads_choice {A : Type} (d : A) (xs : list A) : reads_clock (choice E d xs) 0.
Proof.
  eapply reads_bind; [apply reads_draw | intros; apply reads_ret | reflexivity].
Qed.

Lemma reads_sample_loop {A : Type} (d : A) (k : nat) (pool : list A) :
  reads_clock (sample_loop E d k pool) 0.
Proof.
  revert pool; induction k as [|k IH]; intros pool; cbn [sample_loop];
    [apply reads_ret|].
  eapply reads_bind; [apply reads_draw | | reflexivity]. intros n.
  eapply reads_bind; [apply IH | intros; apply reads_ret | reflexivity].
Qed.

Lemma reads_sample {A : Type} (d : A) (population : list A) (k : Z) :
  reads_clock (sample E d population k) 0.
Proof.
  unfold sample. destruct (_ || _); [apply reads_raise | apply reads_sample_loop].
Qed.

Lemma reads_round_uniform : reads_clock (round_uniform_3_4 E) 0.
Proof.
  eapply reads_bind; [apply reads_draw | intros; apply reads_ret | reflexivity].
Qed.

Lemma reads_minus_days (d : datetime) (k : Z) : reads_clock (minus_days d k) 0.
Proof.
  unfold minus_days. destruct (sub_days d k); [apply reads_ret | apply reads_raise].
Qed.

End Clock.

(** Closes a goal [reads_clock m n] when the only reading of [m], if
    any, comes first. *)
Ltac clock_count :=
  lazymatch goal with
  | |- reads_clock (bind (now _) _) _ =>
      eapply (reads_bind _ _ 1 0); [apply reads_now | intros; clock_count | reflexivity]
  | |- reads_clock (bind _ _) ?n =>
      eapply (reads_bind _ _ 0 n); [clock_count | intros; clock_count | reflexivity]
  | |- reads_clock (if ?b then _ else _) _ => destruct b; clock_count
  | |- reads_clock (mapM _ _) _ => apply reads_mapM; intros; clock_count
  | |- _ =>
      first [ apply reads_ret | apply reads_raise | apply reads_draw
            | apply reads_fake | apply reads_randint | apply reads_choice
            | apply reads_sample | apply reads_round_uniform
            | apply reads_minus_days ]
  end.

Section MoreRuns.

Variable E : Env.
Variable build : list Flowable -> string.

(** ** The generators, one by one *)

Lemma reads_generate_personal_info : reads_clock (generate_personal_info E) 0.
Proof. unfold generate_personal_info. clock_count. Qed.

Lemma reads_generate_work_experience : reads_clock (generate_work_experience E) 1.
Proof. unfold generate_work_experience. clock_count. Qed.

Lemma reads_generate_education : reads_clock (generate_education E) 0.
Proof. unfold generate_education. clock_count. Qed.

Lemma reads_generate_skills : reads_clock (generate_skills E) 0.
Proof. unfold generate_skills. clock_count. Qed.

Lemma reads_generate_certifications : reads_clock (generate_certifications E) 0.
Proof. unfold generate_certifications. clock_count. Qed.

Lemma reads_random_cv_data : reads_clock (random_cv_data E) 1.
Proof.
  unfold random_cv_data.
  eapply reads_bind; [apply reads_generate_personal_info | intros | reflexivity].
  eapply reads_bind; [apply reads_generate_work_experience | intros | reflexivity].
  eapply reads_bind; [apply reads_generate_education | intros | reflexivity].
  eapply reads_bind; [apply reads_generate_skills | intros | reflexivity].
  eapply reads_bind; [apply reads_generate_certifications | intros | reflexivity].
  apply reads_ret.
Qed.

(** ** Education, skills, certifications *)

Lemma generate_education_shaped (w : world) :
  returns (generate_education E) w
    (fun edus _ =>
       (1 <= List.length edus <= 3)%nat
       /\ Forall education_shaped edus /\ Forall gpa_in_bounds edus).
Proof.
  unfold generate_education. run_step.
  eapply returns_mono.
  - apply (mapM_returns _ (fun _ edu => education_shaped edu /\ gpa_in_bounds edu)).
    intros i _ w1. do 4 run_step.
    eapply (returns_bind _ _ _ (fun o _ => gpa_in_bounds (mkEducation "" "" "" o))).
    + match goal with b : bool |- _ => destruct b end.
      * run_step. now apply returns_ret.
      * now apply returns_ret.
    + intros o w2 Ho. apply returns_ret. split; [|exact Ho].
      unfold education_shaped. cbn [degree institution year].
      repeat split; try assumption.
      match goal with H : 2010 <= ?y <= 2023 |- _ =>
        exists y; destruct (graduation_year_text y H); auto
      end.
  - cbv beta. intros edus _ Hall. split; [|split].
    + apply Forall2_length_Z in Hall. lia.
    + eapply Forall2_right, Forall2_impl, Hall. cbv beta. tauto.
    + eapply Forall2_right, Forall2_impl, Hall. cbv beta. tauto.
Qed.

Lemma generate_skills_shaped (w : world) :
  returns (generate_skills E) w (fun s _ => skills_shaped s).
Proof.
  destruct vocabularies_NoDup as (Ht & Hs & _).
  unfold generate_skills. run_step.
  eapply returns_bind; [apply sample_NoDup; [exact Ht | cbn; lia]|].
  intros tech w1 (Hlt & Hit & Hnt). run_step.
  eapply returns_bind; [apply sample_NoDup; [exact Hs | cbn; lia]|].
  intros sft w2 (Hls & His & Hns). apply returns_ret.
  unfold skills_shaped. cbn [technical soft].
  repeat split; try assumption; try lia.
  intros x Hx. intros Hx'. apply (skills_disjoint x); auto.
Qed.

Lemma generate_certifications_shaped (w : world) :
  returns (generate_certifications E) w (fun cs _ => certifications_shaped cs).
Proof.
  destruct vocabularies_NoDup as (_ & _ & Hc).
  unfold generate_certifications. run_step.
  eapply returns_mono; [apply sample_NoDup; [exact Hc | cbn; lia]|].
  cbv beta. intros cs _ (Hl & Hi & Hn). unfold certifications_shaped.
  repeat split; try assumption. lia.
Qed.

Hypothesis Hclock : clock_ok E.

(** ** Work experience *)

(** One round of the loop of [generate_work_experience], with the dates
    behind the texts. *)
Lemma experience_round_dated (current_date : datetime) (i : Z) (w : world) :
  2555 < toordinal current_date <= MAXORDINAL -> 0 <= i < 5 ->
  returns
    (r <- randint E 30 365 ;;
     end_date <- minus_days current_date (r * i) ;;
     r <- randint E 365 1095 ;;
     start_date <- minus_days end_date r ;;
     position <- choice E "" positions ;;
     company <- choice E "" companies ;;
     k <- randint E 2 4 ;;
     responsibilities <- mapM (fun _ => fake E Sentence) (range k) ;;
     ret (mkExperience position company
            (strftime_mY start_date)
            (if 0 <? i then strftime_mY end_date else "Present")
            responsibilities))
    w (fun e _ => entry_dated current_date i e /\ entry_shaped e).
Proof.
  intros Hc Hi. run_step.
  eapply returns_bind; [apply minus_days_returns; nia|]. intros end_d w1 Hend.
  run_step.
  eapply returns_bind; [apply minus_days_returns; nia|]. intros start_d w2 Hstart.
  do 3 run_step.
  eapply returns_bind.
  { apply (mapM_returns _ (fun _ _ => True)). intros j _ w3.
    eapply returns_mono; [apply fake_returns | trivial]. }
  intros resp w3 Hresp. apply returns_ret.
  apply Forall2_length_Z in Hresp.
  split.
  - exists end_d, start_d. cbn [start_date end_date].
    unfold in_range. repeat split; try reflexivity; nia.
  - unfold entry_shaped. cbn [position company responsibilities].
    repeat split; try assumption; lia.
Qed.

Lemma generate_work_experience_dated (w : world) :
  returns (generate_work_experience E) w
    (fun exps _ =>
       exists n, 2 <= n <= 5
                 /\ Forall2 (fun i e => entry_dated (clock E (ticks w)) i e
                                        /\ entry_shaped e) (range n) exps).
Proof.
  unfold generate_work_experience. run_step. run_step.
  eapply returns_mono.
  - apply (mapM_returns _
             (fun i e => entry_dated (clock E (ticks w)) i e /\ entry_shaped e)).
    intros i Hi w2. apply range_In in Hi. subst.
    apply experience_round_dated; [apply Hclock | lia].
  - cbv beta. intros exps _ Hall. eauto.
Qed.

Lemma entry_dated_in_the_past (current : datetime) (i : Z) (e : Experience) :
  0 <= i -> entry_dated current i e -> entry_in_the_past (month_index current) e.
Proof.
  intros Hi (ed & sd & Hed & Hsd & Red & Rsd & Hs & He).
  exists (month_index sd). rewrite Hs. repeat split.
  - now apply parse_strftime_mY.
  - apply month_index_lt. lia.
  - intros Hne. destruct (Z.ltb_spec 0 i); [|congruence].
    exists (month_index ed). rewrite He. repeat split.
    + now apply parse_strftime_mY.
    + apply month_index_lt. lia.
    + apply month_index_mono. lia.
Qed.

(** ** A whole record *)

Lemma random_cv_data_generated (w : world) :
  returns (random_cv_data E) w
    (fun cv_data w' =>
       generated cv_data
       /\ name (personal cv_data) = faker E Name (faked w)
       /\ ticks w' = S (ticks w)).
Proof.
  eapply returns_mono.
  - apply (returns_reads _ 1 w
             (fun cv_data _ => generated cv_data
                               /\ name (personal cv_data) = faker E Name (faked w)));
      [|apply reads_random_cv_data].
    unfold random_cv_data.
    eapply returns_bind; [apply generate_personal_info_returns|]. intros p w1 Hp.
    eapply returns_bind; [apply generate_work_experience_dated|].
    intros exps w2 (n & Hn & Hexps).
    eapply returns_bind; [apply generate_education_shaped|].
    intros edus w3 (Hne & Hedus & Hgpa).
    eapply returns_bind; [apply generate_skills_shaped|]. intros sk w4 Hsk.
    eapply returns_bind; [apply generate_certifications_shaped|]. intros cs w5 Hcs.
    apply returns_ret. split; [|exact Hp].
    unfold generated. cbn [experience education skills certifications].
    pose proof (Forall2_length_Z _ _ _ Hexps) as Hlen.
    split; [lia|].
    split; [eapply Forall2_right, Forall2_impl, Hexps; cbv beta; tauto|].
    split; [lia|].
    split; [exact Hedus|]. split; [exact Hgpa|]. split; [exact Hsk | exact Hcs].
  - cbv beta. intros cv w' ((Hg & Hn) & Ht).
    split; [exact Hg|]. split; [exact Hn | lia].
Qed.

(** One round of the loop of [download_multiple_cvs_zip], with the
    readings of the clock. *)
Lemma zip_round_member (zip_file : ZipFile) (i : Z) (w : world) :
  returns
    (cv_data <- random_cv_data E ;;
     let pdf_buffer := create_pdf build cv_data in
     timestamp <- now E ;;
     let filename :=
       cv_filename (name (personal cv_data)) (strftime_stamp timestamp)
         (Some (i + 1)) in
     ret (writestr zip_file filename pdf_buffer))
    w (fun acc' w' =>
         ticks w' = (ticks w + 2)%nat
         /\ exists e, acc' = (zip_file ++ [e])%list /\ member_ok E build (ticks w) i e).
Proof.
  eapply returns_bind; [apply random_cv_data_generated|].
  intros cv w1 (Hg & _ & Ht). cbv zeta.
  exists (writestr zip_file
            (cv_filename (name (personal cv)) (strftime_stamp (clock E (ticks w1)))
               (Some (i + 1)))
            (create_pdf build cv)),
         (mkWorld (drawn w1) (faked w1) (S (ticks w1))).
  split; [reflexivity|]. cbn [ticks]. split; [lia|].
  eexists. split; [reflexivity|]. exists cv. rewrite Ht. split; [exact Hg | reflexivity].
Qed.

(** ** The generators as a user sees them *)

(** X5.  With the clock in range, every entry that
    [generate_work_experience] returns has a position and a company of
    the two fixed lists and two to four responsibilities. *)
Theorem X5_work_experience_vocabulary (w : world) :
  returns (generate_work_experience E) w
    (fun exps _ =>
       (2 <= List.length exps <= 5)%nat /\ Forall entry_shaped exps).
Proof.
  eapply returns_mono; [apply generate_work_experience_dated|].
  cbv beta. intros exps _ (n & Hn & Hall). split.
  - apply Forall2_length_Z in Hall. lia.
  - eapply Forall2_right, Forall2_impl, Hall. cbv beta. tauto.
Qed.

(** X6.  With the clock in range, [generate_work_experience] reads the
    clock once, and against the month of that reading every entry lies in
    the past: its start date reads back as an earlier month, and an end
    date other than [Present] reads back as a month after the start and
    not after the month of the reading. *)
Theorem X6_work_experience_in_the_past (w : world) :
  returns (generate_work_experience E) w
    (fun exps w' =>
       ticks w' = S (ticks w)
       /\ Forall (entry_in_the_past (month_index (clock E (ticks w)))) exps).
Proof.
  eapply returns_mono.
  - eapply returns_reads;
      [apply generate_work_experience_dated | apply reads_generate_work_experience].
  - cbv beta. intros exps w' ((n & Hn & Hall) & Ht). split; [lia|].
    eapply (Forall2_entries _ _ (fun i => 0 <= i)); [exact Hall | |].
    + apply Forall_forall. intros i Hi. apply range_In in Hi. lia.
    + cbv beta. intros i e Hi (Hd & _). now apply (entry_dated_in_the_past _ i).
Qed.

(** X17.  With the clock in range, [generate_random_cv] returns a record
    that satisfies what the five generators guarantee; its name is the
    first Faker answer of the request and the clock was read once. *)
Theorem X17_generate_random_cv (w : world) :
  returns (generate_random_cv E) w
    (fun cv_data w' =>
       generated cv_data
       /\ name (personal cv_data) = faker E Name (faked w)
       /\ ticks w' = S (ticks w)).
Proof. exact (random_cv_data_generated w). Qed.

(** ** The handlers *)

Lemma reads_generate_multiple_cvs (count : Z) :
  reads_clock (generate_multiple_cvs E count) (Z.to_nat count).
Proof.
  unfold generate_multiple_cvs. destruct (20 <? count); [apply reads_raise|].
  eapply (reads_bind _ _ (Z.to_nat count) 0); [| intros; apply reads_ret | lia].
  replace (Z.to_nat count) with (1 * List.length (range count))%nat
    by (rewrite range_length; lia).
  apply reads_mapM_each. intros _. apply reads_random_cv_data.
Qed.

(** X10.  With the clock in range and a count N from 0 to 20,
    [generate_multiple_cvs] returns exactly N records, each as the
    generators guarantee, with the field [count] equal to N, and reads
    the clock once per record. *)
Theorem X10_generate_multiple_cvs (count : Z) (w : world) :
  0 <= count <= 20 ->
  returns (generate_multiple_cvs E count) w
    (fun out w' =>
       Z.of_nat (List.length (fst out)) = count
       /\ snd out = count
       /\ Forall generated (fst out)
       /\ ticks w' = (ticks w + Z.to_nat count)%nat).
Proof.
  intros Hc. eapply returns_mono.
  - eapply (returns_reads _ _ w
              (fun out _ => Z.of_nat (List.length (fst out)) = count
                            /\ snd out = count /\ Forall generated (fst out)));
      [|apply reads_generate_multiple_cvs].
    unfold generate_multiple_cvs. destruct (Z.ltb_spec 20 count); [lia|].
    eapply returns_bind.
    { apply (mapM_returns _ (fun _ cv => generated cv)). intros i _ w1.
      eapply returns_mono; [apply random_cv_data_generated|]. cbv beta. tauto. }
    intros cvs w1 Hall. apply returns_ret. cbn [fst snd].
    pose proof (Forall2_length_Z _ _ _ Hall) as Hlen.
    repeat split; try lia. eapply Forall2_right, Hall.
  - cbv beta. tauto.
Qed.

Lemma single_download (w : world) :
  returns (download_single_cv_pdf E build) w
    (fun out w' =>
       ticks w' = (ticks w + 2)%nat
       /\ exists cv_data,
           generated cv_data
           /\ name (personal cv_data) = faker E Name (faked w)
           /\ fst out = cv_filename (name (personal cv_data))
                          (strftime_stamp (clock E (S (ticks w)))) None
           /\ snd out = build (story cv_data)).
Proof.
  unfold download_single_cv_pdf.
  eapply returns_bind; [apply random_cv_data_generated|].
  intros cv w1 (Hg & Hn & Ht). cbv zeta.
  eexists _, _. split; [reflexivity|]. cbn [ticks fst snd]. split; [lia|].
  exists cv. rewrite Ht.
  split; [exact Hg|]. split; [exact Hn|]. split; reflexivity.
Qed.

Lemma zip_members (count : Z) (w : world) :
  count <= 20 ->
  returns (download_multiple_cvs_zip E build count) w
    (fun out w' =>
       let n := Z.to_nat count in
       ticks w' = (ticks w + 2 * n + 1)%nat
       /\ fst out = "CVs_Batch_" ++ strftime_stamp (clock E (ticks w + 2 * n)) ++ "_"
                    ++ Py.str_int count ++ "_files.zip"
       /\ List.length (snd out) = n
       /\ forall k, (k < n)%nat ->
            exists cv_data,
              generated cv_data
              /\ nth_error (snd out) k
                 = Some (cv_filename (name (personal cv_data))
                           (strftime_stamp (clock E (ticks w + 2 * k + 1)))
                           (Some (Z.of_nat k + 1)),
                         build (story cv_data))).
Proof.
  intros Hc. unfold download_multiple_cvs_zip.
  destruct (Z.ltb_spec 20 count); [lia|].
  eapply returns_bind.
  { apply (foldM_members _ 2 (member_ok E build)). intros acc i w1.
    apply zip_round_member. }
  intros zip_file w1 (Ht & es & -> & Hlen & Hall). cbv beta zeta.
  rewrite range_length in *. cbn [app] in *.
  eexists _, _. split; [reflexivity|]. cbn [ticks fst snd].
  split; [lia|]. split; [now rewrite Ht|]. split; [exact Hlen|].
  intros k Hk.
  destruct (Hall k _ (range_nth count k Hk)) as (e & He & cv & Hg & ->).
  exists cv. split; [exact Hg|]. rewrite He.
  now replace (S (ticks w + 2 * k)) with (ticks w + 2 * k + 1)%nat by lia.
Qed.

(** X11.  With the clock in range, [download_single_cv_pdf] returns the
    rendering of the story of a generated record under the name of that
    very record, which is the first Faker answer of the request; the
    clock is read twice, and the stamp of the name is the second reading,
    not the one the experience dates are counted from. *)
Theorem X11_single_download (w : world) :
  returns (download_single_cv_pdf E build) w
    (fun out w' =>
       ticks w' = (ticks w + 2)%nat
       /\ exists cv_data,
           generated cv_data
           /\ name (personal cv_data) = faker E Name (faked w)
           /\ fst out = cv_filename (name (personal cv_data))
                          (strftime_stamp (clock E (S (ticks w)))) None
           /\ snd out = build (story cv_data)).
Proof. exact (single_download w). Qed.

(** X12.  With the clock in range and a count of at most 20 (N members, 0
    for a count below 0), [download_multiple_cvs_zip] reads the clock
    2 N + 1 times; member k (from 0) is the rendering of a generated
    record under the name of that record, stamped with reading 2 k + 1
    and indexed k + 1; the archive is named after the last reading and
    the count. *)
Theorem X12_zip_members (count : Z) (w : world) :
  count <= 20 ->
  returns (download_multiple_cvs_zip E build count) w
    (fun out w' =>
       let n := Z.to_nat count in
       ticks w' = (ticks w + 2 * n + 1)%nat
       /\ fst out = "CVs_Batch_" ++ strftime_stamp (clock E (ticks w + 2 * n)) ++ "_"
                    ++ Py.str_int count ++ "_files.zip"
       /\ List.length (snd out) = n
       /\ forall k, (k < n)%nat ->
            exists cv_data,
              generated cv_data
              /\ nth_error (snd out) k
                 = Some (cv_filename (name (personal cv_data))
                           (strftime_stamp (clock E (ticks w + 2 * k + 1)))
                           (Some (Z.of_nat k + 1)),
                         build (story cv_data))).
Proof. exact (zip_members count w). Qed.

(** X14.  With the clock in range, no name that the download handlers
    produce holds a space or a comma: not the name of the single
    download, not the name of the archive, not the name of any member,
    whatever the Faker names are. *)
Theorem X14_names_without_space_or_comma :
  (forall w,
      returns (download_single_cv_pdf E build) w (fun out _ => plain (fst out) = true))
  /\ (forall count w,
        count <= 20 ->
        returns (download_multiple_cvs_zip E build count) w
          (fun out _ =>
             plain (fst out) = true
             /\ Forall (fun e => plain (fst e) = true) (snd out))).
Proof.
  split.
  - intros w. eapply returns_mono; [apply single_download|].
    cbv beta. intros out _ (_ & cv & _ & _ & -> & _). apply plain_cv_filename.
  - intros count w Hc. eapply returns_mono; [apply zip_members; exact Hc|].
    cbv beta zeta. intros out _ (_ & -> & Hlen & Hall). split.
    + rewrite !plain_append, plain_stamp, plain_str_int. reflexivity.
    + apply Forall_forall. intros e He.
      apply In_nth_error in He. destruct He as (k & Hk).
      assert (Hlt : (k < Z.to_nat count)%nat).
      { rewrite <- Hlen. apply nth_error_Some. congruence. }
      destruct (Hall k Hlt) as (cv & _ & Hcv). rewrite Hcv in Hk.
      injection Hk as <-. apply plain_cv_filename.
Qed.

(** X4.  With the clock in range, the story that [create_pdf] composes
    for a generated record has between 21 and 51 blocks. *)
Theorem X4_generated_story_bounds (w : world) :
  returns (random_cv_data E) w
    (fun cv_data _ => (21 <= List.length (story cv_data) <= 51)%nat).
Proof.
  eapply returns_mono; [apply random_cv_data_generated|].
  cbv beta. intros cv _ (Hg & _). rewrite story_length.
  now apply generated_story_size.
Qed.

(** X18.  With the clock in range, the story of a generated record shows
    its first job as the current one: the seventh block, the first after
    the WORK EXPERIENCE header, is the header of the first experience
    entry and ends in [- Present)]. *)
Theorem X18_current_job_first (w : world) :
  returns (random_cv_data E) w
    (fun cv_data _ =>
       exists first rest,
         experience cv_data = first :: rest
         /\ nth_error (story cv_data) 6
            = Some (Paragraph
                      ("<b>" ++ position first ++ "</b> - " ++ company first
                       ++ " (" ++ start_date first ++ " - Present)")
                      Normal)).
Proof.
  unfold random_cv_data.
  eapply returns_bind; [apply generate_personal_info_returns|]. intros p w1 _.
  eapply returns_bind; [apply (generate_work_experience_rounds E Hclock)|].
  intros exps w2 (n & Hn & Hexps).
  eapply returns_bind; [apply generate_education_returns|]. intros edus w3 _.
  eapply returns_bind; [apply generate_skills_returns|]. intros sk w4 _.
  eapply returns_bind; [apply generate_certifications_returns|]. intros cs w5 _.
  apply returns_ret.
  destruct (range_cons n ltac:(lia)) as (is_ & Hr & _). rewrite Hr in Hexps.
  inversion Hexps as [|? first ? rest (_ & Hpresent & _) _]; subst.
  exists first, rest. split; [reflexivity|].
  rewrite StoryFacts.story_closed_form. cbn [experience preamble app flat_map].
  unfold experience_blocks at 1. cbn [app nth_error]. unfold exp_header.
  now rewrite (Hpresent eq_refl).
Qed.

End MoreRuns.

Section Unconditional.

Variable E : Env.
Variable build : list Flowable -> string.

(** X7.  [generate_education] returns one to three entries, each with a
    degree and an institution of the two fixed lists and, as its year,
    the four-digit text of a year from 2010 to 2023. *)
Theorem X7_education_vocabulary (w : world) :
  returns (generate_education E) w
    (fun edus _ =>
       (1 <= List.length edus <= 3)%nat /\ Forall education_shaped edus).
Proof.
  eapply returns_mono; [apply generate_education_shaped|]. cbv beta. tauto.
Qed.

(** X8.  [generate_skills] returns five to ten technical skills and
    three to six soft skills, each list without repetition and drawn from
    its fixed list, and no skill is in both. *)
Theorem X8_skills_without_repetition (w : world) :
  returns (generate_skills E) w
    (fun s _ =>
       (5 <= List.length (technical s) <= 10)%nat
       /\ (3 <= List.length (soft s) <= 6)%nat
       /\ NoDup (technical s) /\ NoDup (soft s)
       /\ incl (technical s) technical_skills /\ incl (soft s) soft_skills
       /\ (forall x, In x (technical s) -> ~ In x (soft s))).
Proof. exact (generate_skills_shaped E w). Qed.

(** X9.  [generate_certifications] returns at most three certifications,
    without repetition, all of the fixed list. *)
Theorem X9_certifications_without_repetition (w : world) :
  returns (generate_certifications E) w
    (fun cs _ => (List.length cs <= 3)%nat /\ NoDup cs /\ incl cs certs).
Proof. exact (generate_certifications_shaped E w). Qed.


End Unconditional.

(** ** The story beyond the experience section *)

(** X1.  After the experience section the story goes on with the
    EDUCATION header; for each education entry, in order, its text and a
    spacer; the SKILLS header, the technical skills and the soft skills,
    each joined with commas after its bold label, and a spacer; and, when
    there are certifications, the CERTIFICATIONS header and one bullet
    per certification, in order.  Nothing follows. *)
Theorem X1_story_after_experience (cv_data : CVData) :
  story cv_data
  = (preamble cv_data
     ++ flat_map experience_blocks (experience cv_data)
     ++ Paragraph "EDUCATION" SectionHeader
        :: flat_map (fun edu => [Paragraph (edu_text edu) Normal; Spacer 1 8])
             (education cv_data)
     ++ [ Paragraph "SKILLS" SectionHeader;
          Paragraph ("<b>Technical:</b> " ++ Py.join ", " (technical (skills cv_data))) Normal;
          Paragraph ("<b>Soft Skills:</b> " ++ Py.join ", " (soft (skills cv_data))) Normal;
          Spacer 1 8 ]
     ++ match certifications cv_data with
        | [] => []
        | _ :: _ =>
            Paragraph "CERTIFICATIONS" SectionHeader
            :: map (fun cert => Paragraph (bullet ++ cert) Normal) (certifications cv_data)
        end)%list.
Proof.
  rewrite StoryFacts.story_closed_form. unfold epilogue, certification_blocks.
  destruct (certifications cv_data); reflexivity.
Qed.

(** X2.  The section headers of a story are, in this order, PROFESSIONAL
    SUMMARY, WORK EXPERIENCE, EDUCATION and SKILLS, followed by
    CERTIFICATIONS exactly when the list of certifications is not empty;
    headers of empty experience or education lists are still there. *)
Theorem X2_section_headers_in_order (cv_data : CVData) :
  texts_styled SectionHeader (story cv_data)
  = ([ "PROFESSIONAL SUMMARY"; "WORK EXPERIENCE"; "EDUCATION"; "SKILLS" ]
     ++ match certifications cv_data with
        | [] => []
        | _ :: _ => ["CERTIFICATIONS"]
        end)%list.
Proof.
  rewrite StoryFacts.section_headers. destruct (certifications cv_data); reflexivity.
Qed.

(** X3.  The story has eleven fixed blocks, two more than it has
    responsibilities for each experience entry, two for each education
    entry and, when there are certifications, one more than there are
    certifications. *)
Theorem X3_story_size (cv_data : CVData) :
  List.length (story cv_data)
  = (11
     + list_sum (map (fun e => 2 + List.length (responsibilities e)) (experience cv_data))
     + 2 * List.length (education cv_data)
     + match certifications cv_data with
       | [] => 0
       | _ :: _ => 1 + List.length (certifications cv_data)
       end)%nat.
Proof. exact (story_length cv_data). Qed.

(** ** [sanitize] *)

(** X15.  Sanitizing a name twice is sanitizing it once; the result is
    shorter than the name by the number of its commas; and a name without
    space or comma is left as it is. *)
Theorem X15_sanitize_laws (name : string) :
  sanitize (sanitize name) = sanitize name
  /\ (String.length (sanitize name) + count_char "," name = String.length name)%nat
  /\ (plain name = true -> sanitize name = name).
Proof.
  assert (Hplain : forall s, plain s = true -> sanitize s = s).
  { intros s Hs. apply chars_inj. rewrite sanitize_chars.
    now apply sanitized_chars_plain. }
  split; [|split].
  - apply Hplain, plain_sanitize.
  - rewrite <- (length_chars (sanitize name)), sanitize_chars.
    unfold sanitized_chars. rewrite length_map. apply count_char_chars.
  - apply Hplain.
Qed.

(** ** Concrete runs *)

Lemma X18_witness :
  clock_ok (sample_env [] sample_time)
  /\ returns (random_cv_data (sample_env [] sample_time)) fresh
       (fun cv_data _ =>
          exists first rest,
            experience cv_data = first :: rest
            /\ nth_error (story cv_data) 6
               = Some (Paragraph
                         ("<b>" ++ position first ++ "</b> - " ++ company first
                          ++ " (" ++ start_date first ++ " - Present)")
                         Normal)).
Proof.
  split; [exact (sample_clock_ok [])|].
  exact (X18_current_job_first (sample_env [] sample_time) (sample_clock_ok []) fresh).
Defined.

Lemma X4_witness :
  clock_ok (sample_env [] sample_time)
  /\ returns (random_cv_data (sample_env [] sample_time)) fresh
       (fun cv_data _ => (21 <= List.length (story cv_data) <= 51)%nat).
Proof.
  split; [exact (sample_clock_ok [])|].
  exact (X4_generated_story_bounds (sample_env [] sample_time) (sample_clock_ok []) fresh).
Defined.

Lemma X5_witness :
  clock_ok (sample_env [] sample_time)
  /\ returns (generate_work_experience (sample_env [] sample_time)) fresh
       (fun exps _ => (2 <= List.length exps <= 5)%nat /\ Forall entry_shaped exps).
Proof.
  split; [exact (sample_clock_ok [])|].
  exact (X5_work_experience_vocabulary (sample_env [] sample_time)
           (sample_clock_ok []) fresh).
Defined.

Lemma X6_witness :
  clock_ok (sample_env unordered_draws sample_time)
  /\ returns (generate_work_experience (sample_env unordered_draws sample_time)) fresh
       (fun exps w' =>
          ticks w' = S (ticks fresh)
          /\ Forall (entry_in_the_past
                       (month_index (clock (sample_env unordered_draws sample_time)
                                       (ticks fresh)))) exps).
Proof.
  split; [exact (sample_clock_ok unordered_draws)|].
  exact (X6_work_experience_in_the_past (sample_env unordered_draws sample_time)
           (sample_clock_ok unordered_draws) fresh).
Defined.

Lemma X10_witness :
  0 <= 3 <= 20
  /\ returns (generate_multiple_cvs (sample_env [] sample_time) 3) fresh
       (fun out w' =>
          Z.of_nat (List.length (fst out)) = 3
          /\ snd out = 3
          /\ Forall generated (fst out)
          /\ ticks w' = (ticks fresh + Z.to_nat 3)%nat).
Proof.
  assert (H : 0 <= 3 <= 20) by lia.
  split; [exact H|].
  exact (X10_generate_multiple_cvs (sample_env [] sample_time) (sample_clock_ok [])
           3 fresh H).
Defined.

Lemma X11_witness :
  clock_ok (sample_env [] sample_time)
  /\ returns (download_single_cv_pdf (sample_env [] sample_time) sample_build) fresh
       (fun out w' =>
          ticks w' = (ticks fresh + 2)%nat
          /\ exists cv_data,
              generated cv_data
              /\ name (personal cv_data)
                 = faker (sample_env [] sample_time) Name (faked fresh)
              /\ fst out = cv_filename (name (personal cv_data))
                             (strftime_stamp
                                (clock (sample_env [] sample_time) (S (ticks fresh))))
                             None
              /\ snd out = sample_build (story cv_data)).
Proof.
  split; [exact (sample_clock_ok [])|].
  exact (X11_single_download (sample_env [] sample_time) sample_build
           (sample_clock_ok []) fresh).
Defined.

Lemma X12_witness :
  2 <= 20
  /\ returns (download_multiple_cvs_zip (sample_env [] sample_time) sample_build 2) fresh
       (fun out w' =>
          let n := Z.to_nat 2 in
          ticks w' = (ticks fresh + 2 * n + 1)%nat
          /\ fst out = "CVs_Batch_"
                       ++ strftime_stamp
                            (clock (sample_env [] sample_time) (ticks fresh + 2 * n))
                       ++ "_" ++ Py.str_int 2 ++ "_files.zip"
          /\ List.length (snd out) = n
          /\ forall k, (k < n)%nat ->
               exists cv_data,
                 generated cv_data
                 /\ nth_error (snd out) k
                    = Some (cv_filename (name (personal cv_data))
                              (strftime_stamp
                                 (clock (sample_env [] sample_time)
                                    (ticks fresh + 2 * k + 1)))
                              (Some (Z.of_nat k + 1)),
                            sample_build (story cv_data))).
Proof.
  assert (H : 2 <= 20) by lia.
  split; [exact H|].
  exact (X12_zip_members (sample_env [] sample_time) sample_build
           (sample_clock_ok []) 2 fresh H).
Defined.


Lemma X14_witness :
  clock_ok (sample_env [] sample_time)
  /\ 2 <= 20
  /\ returns (download_multiple_cvs_zip (sample_env [] sample_time) sample_build 2) fresh
       (fun out _ =>
          plain (fst out) = true /\ Forall (fun e => plain (fst e) = true) (snd out)).
Proof.
  assert (H : 2 <= 20) by lia.
  split; [exact (sample_clock_ok [])|]. split; [exact H|].
  exact (proj2 (X14_names_without_space_or_comma (sample_env [] sample_time) sample_build
                  (sample_clock_ok [])) 2 fresh H).
Defined.

Lemma X15_witness :
  plain "Ann_Lee" = true /\ sanitize "Ann_Lee" = "Ann_Lee".
Proof.
  assert (H : plain "Ann_Lee" = true) by reflexivity.
  split; [exact H|].
  exact (proj2 (proj2 (X15_sanitize_laws "Ann_Lee")) H).
Defined.

Lemma X17_witness :
  clock_ok (sample_env [] sample_time)
  /\ returns (generate_random_cv (sample_env [] sample_time)) fresh
       (fun cv_data w' =>
          generated cv_data
          /\ name (personal cv_data) = faker (sample_env [] sample_time) Name (faked fresh)
          /\ ticks w' = S (ticks fresh)).
Proof.
  split; [exact (sample_clock_ok [])|].
  exact (X17_generate_random_cv (sample_env [] sample_time) (sample_clock_ok []) fresh).
Defined.

End MoreFacts.

(* ================================================================== *)
(** * The style sheet *)
(* ================================================================== *)

Module StyleFacts.

Import Styles.







End StyleFacts.
